(** * PatientVitals: a shallow embedding of [main.py]

    The service records vital-sign readings in a document collection,
    lists a patient's readings newest first, and renders the latest
    reading as a one-page PDF.  The handlers of [main.py] are embedded
    as functions over an explicit collection and an explicit reports
    directory; the clock reading and the identifier generated by the
    driver are inputs of the step they belong to. *)

From Stdlib Require Import ZArith NArith List String Ascii Bool Lia.
From Stdlib Require Import Permutation Sorted RelationClasses.
From Stdlib Require Import DecimalString.
From Stdlib Require Import Floats.PrimFloat.
Import ListNotations.

Local Open Scope string_scope.
Local Open Scope Z_scope.

(** ** Python values *)

(** A [datetime] is an instant on the UTC time line, counted in
    microseconds; an [ObjectId] is the 96-bit number behind the
    driver's identifier. *)
Definition datetime := Z.
Definition ObjectId := N.

(** The values a document of the collection holds: [None], integers,
    floats (IEEE binary64, as in Python), strings, native time values,
    object identifiers and embedded documents.  A Python [dict] keeps
    its keys in insertion order, so it is an association list. *)
#[local] Set Warnings "-register-all,-inexact-float".

Inductive value : Type :=
| VNone
| VInt (z : Z)
| VFloat (f : float)
| VStr (s : string)
| VDatetime (d : datetime)
| VObjectId (o : ObjectId)
| VDict (kvs : list (string * value)).

Definition dict := list (string * value).

(** [key in d] and [d[key]] *)
Fixpoint dict_get (k : string) (d : dict) : option value :=
  match d with
  | [] => None
  | (k', v) :: d' => if String.eqb k' k then Some v else dict_get k d'
  end.

(** [d.get(key)]: [None] when the key is missing *)
Definition py_get (k : string) (d : dict) : value :=
  match dict_get k d with
  | Some v => v
  | None => VNone
  end.

(** [d[key] = v]: the key keeps its place when present, is appended
    otherwise *)
Fixpoint dict_set (k : string) (v : value) (d : dict) : dict :=
  match d with
  | [] => [(k, v)]
  | (k', v') :: d' =>
      if String.eqb k' k then (k', v) :: d' else (k', v') :: dict_set k v d'
  end.

(** [d.pop(key, None)], the popped value dropped *)
Fixpoint dict_pop (k : string) (d : dict) : dict :=
  match d with
  | [] => []
  | (k', v') :: d' =>
      if String.eqb k' k then d' else (k', v') :: dict_pop k d'
  end.

Definition keys (d : dict) : list string := map fst d.

(** Truth value of a Python object, as [or], [if] and [not] test it. *)
Definition truthy (v : value) : bool :=
  match v with
  | VNone => false
  | VInt z => negb (z =? 0)
  | VFloat f => negb (PrimFloat.eqb f 0%float)
  | VStr s => negb (String.eqb s "")
  | VDatetime _ => true
  | VObjectId _ => true
  | VDict kvs => match kvs with [] => false | _ => true end
  end.

(** [a or b] *)
Definition py_or (a b : value) : value := if truthy a then a else b.

(** [str(n)] for an integer *)
Definition str_int (z : Z) : string := NilZero.string_of_int (Z.to_int z).

(** [str(oid)]: 24 lower-case hexadecimal digits *)
Definition hex_digit (n : N) : ascii :=
  match n with
  | 0%N => "0" | 1%N => "1" | 2%N => "2" | 3%N => "3"
  | 4%N => "4" | 5%N => "5" | 6%N => "6" | 7%N => "7"
  | 8%N => "8" | 9%N => "9" | 10%N => "a" | 11%N => "b"
  | 12%N => "c" | 13%N => "d" | 14%N => "e" | _ => "f"
  end%char.

Fixpoint hex_of (digits : nat) (n : N) (acc : string) : string :=
  match digits with
  | O => acc
  | S k => hex_of k (N.div n 16) (String (hex_digit (N.modulo n 16)) acc)
  end.

Definition str_ObjectId (o : ObjectId) : string := hex_of 24 o "".

(** ** The runtime outside [main.py]

    The text forms of time values and floats, the ISO-8601 parser, and
    what pydantic makes of a value whose kind is not the declared one,
    belong to the Python runtime and its libraries.  The handlers are
    stated over them. *)
Record Runtime : Type := {
  (** [d.isoformat()] *)
  isoformat : datetime -> string;
  (** [d.strftime(fmt)] *)
  strftime : datetime -> string -> string;
  (** [datetime.fromisoformat(s)]; [None] when it raises *)
  fromisoformat : string -> option datetime;
  (** [str(f)] for a float *)
  str_float : float -> string;
  (** [str(d)] for a time value, [str(d)] for a dict *)
  str_datetime : datetime -> string;
  str_dict : dict -> string;
  (** pydantic's conversion of a value of another kind to the declared
      type of a field; [None] when validation fails *)
  lax_str : value -> option string;
  lax_int : value -> option Z;
  lax_float : value -> option float;
  lax_datetime : value -> option datetime
}.


Section Service.

Context (rt : Runtime).

(** [str(v)], which an f-string applies to the value it interpolates *)
Definition py_str (v : value) : string :=
  match v with
  | VNone => "None"
  | VInt z => str_int z
  | VFloat f => str_float rt f
  | VStr s => s
  | VDatetime d => str_datetime rt d
  | VObjectId o => str_ObjectId o
  | VDict kvs => str_dict rt kvs
  end.

(** ** Pydantic models *)

Record BloodPressure : Type := {
  systolic : option Z;
  diastolic : option Z
}.

Record Vitals : Type := {
  patient_id : string;
  patient_name : option string;
  timestamp : option datetime;
  heart_rate : option Z;
  blood_pressure : option BloodPressure;
  respiratory_rate : option Z;
  temperature_c : option float;
  oxygen_saturation : option Z;
  notes : option string
}.

(** [v.timestamp = t] *)
Definition set_timestamp (v : Vitals) (t : option datetime) : Vitals :=
  {| patient_id := patient_id v;
     patient_name := patient_name v;
     timestamp := t;
     heart_rate := heart_rate v;
     blood_pressure := blood_pressure v;
     respiratory_rate := respiratory_rate v;
     temperature_c := temperature_c v;
     oxygen_saturation := oxygen_saturation v;
     notes := notes v |}.

(** An optional attribute as the Python object it is: [None] when unset. *)
Definition opt {A : Type} (inj : A -> value) (o : option A) : value :=
  match o with
  | Some a => inj a
  | None => VNone
  end.

(** [model.dict()]: one key per declared field, in declaration order,
    nested models turned into dicts. *)
Definition BloodPressure_dict (bp : BloodPressure) : dict :=
  [ ("systolic", opt VInt (systolic bp));
    ("diastolic", opt VInt (diastolic bp)) ].

Definition Vitals_dict (v : Vitals) : dict :=
  [ ("patient_id", VStr (patient_id v));
    ("patient_name", opt VStr (patient_name v));
    ("timestamp", opt VDatetime (timestamp v));
    ("heart_rate", opt VInt (heart_rate v));
    ("blood_pressure", opt (fun bp => VDict (BloodPressure_dict bp)) (blood_pressure v));
    ("respiratory_rate", opt VInt (respiratory_rate v));
    ("temperature_c", opt VFloat (temperature_c v));
    ("oxygen_saturation", opt VInt (oxygen_saturation v));
    ("notes", opt VStr (notes v)) ].

(** The same dict with another value under [timestamp] *)
Definition Vitals_dict_with (ts : value) (v : Vitals) : dict :=
  [ ("patient_id", VStr (patient_id v));
    ("patient_name", opt VStr (patient_name v));
    ("timestamp", ts);
    ("heart_rate", opt VInt (heart_rate v));
    ("blood_pressure", opt (fun bp => VDict (BloodPressure_dict bp)) (blood_pressure v));
    ("respiratory_rate", opt VInt (respiratory_rate v));
    ("temperature_c", opt VFloat (temperature_c v));
    ("oxygen_saturation", opt VInt (oxygen_saturation v));
    ("notes", opt VStr (notes v)) ].

(** Validation of one [Optional[T] = None] field from keyword
    arguments: a missing key and [None] give [None]; a value of the
    declared kind is kept; any other value goes through pydantic's
    conversion.  The outer [None] is a [ValidationError]. *)
Definition validate_optional {A : Type}
    (own lax : value -> option A) (arg : option value) : option (option A) :=
  match arg with
  | None => Some None
  | Some VNone => Some None
  | Some x =>
      match own x with
      | Some a => Some (Some a)
      | None => option_map Some (lax x)
      end
  end.

Definition as_str (v : value) : option string :=
  match v with VStr s => Some s | _ => None end.
Definition as_int (v : value) : option Z :=
  match v with VInt z => Some z | _ => None end.
Definition as_float (v : value) : option float :=
  match v with VFloat f => Some f | _ => None end.
Definition as_datetime (v : value) : option datetime :=
  match v with VDatetime d => Some d | _ => None end.

(** [BloodPressure] built from keyword arguments *)
Definition BloodPressure_validate (kw : dict) : option BloodPressure :=
  match validate_optional as_int (lax_int rt) (dict_get "systolic" kw) with
  | None => None
  | Some s =>
      match validate_optional as_int (lax_int rt) (dict_get "diastolic" kw) with
      | None => None
      | Some d => Some {| systolic := s; diastolic := d |}
      end
  end.

(** A nested model is built from a dict; nothing else converts to it. *)
Definition as_BloodPressure (v : value) : option BloodPressure :=
  match v with
  | VDict kw => BloodPressure_validate kw
  | _ => None
  end.

(** The required [patient_id: str] *)
Definition validate_patient_id (arg : option value) : option string :=
  match arg with
  | None => None
  | Some VNone => None
  | Some (VStr s) => Some s
  | Some x => lax_str rt x
  end.

(** [Vitals] built from the keyword arguments [doc]; keys that name
    no field are ignored.  [None] is a
    [ValidationError]. *)
Definition Vitals_validate (doc : dict) : option Vitals :=
  match validate_patient_id (dict_get "patient_id" doc),
        validate_optional as_str (lax_str rt) (dict_get "patient_name" doc),
        validate_optional as_datetime (lax_datetime rt) (dict_get "timestamp" doc),
        validate_optional as_int (lax_int rt) (dict_get "heart_rate" doc),
        validate_optional as_BloodPressure (fun _ => None) (dict_get "blood_pressure" doc),
        validate_optional as_int (lax_int rt) (dict_get "respiratory_rate" doc),
        validate_optional as_float (lax_float rt) (dict_get "temperature_c" doc),
        validate_optional as_int (lax_int rt) (dict_get "oxygen_saturation" doc),
        validate_optional as_str (lax_str rt) (dict_get "notes" doc)
  with
  | Some pid, Some pn, Some ts, Some hr, Some bp, Some rr, Some tc, Some ox, Some nt =>
      Some {| patient_id := pid;
              patient_name := pn;
              timestamp := ts;
              heart_rate := hr;
              blood_pressure := bp;
              respiratory_rate := rr;
              temperature_c := tc;
              oxygen_saturation := ox;
              notes := nt |}
  | _, _, _, _, _, _, _, _, _ => None
  end.

(** ** The collection [db.vitals] *)

(** The database keeps time values in whole milliseconds: the driver
    drops the microseconds below when it encodes a document. *)
Definition cut_ms (d : datetime) : datetime := d / 1000 * 1000.

(** A value as it comes back from the database. *)
Fixpoint bson (v : value) : value :=
  match v with
  | VDatetime d => VDatetime (cut_ms d)
  | VDict kvs =>
      VDict ((fix items (l : list (string * value)) : list (string * value) :=
                match l with
                | [] => []
                | (k, x) :: l' => (k, bson x) :: items l'
                end) kvs)
  | _ => v
  end.

Definition bson_doc (doc : dict) : dict :=
  map (fun kv => (fst kv, bson (snd kv))) doc.

(** The driver encodes an integer in at most 8 bytes and raises
    [OverflowError] on a wider one, storing nothing.  [insert_one]
    below is the insert of a document whose integers fit; [storable]
    says so of a body. *)
Definition int64 (o : option Z) : bool :=
  match o with
  | Some z => (- 2 ^ 63 <=? z) && (z <? 2 ^ 63)
  | None => true
  end.

Definition storable (v : Vitals) : bool :=
  int64 (heart_rate v) && int64 (respiratory_rate v) &&
  int64 (oxygen_saturation v) &&
  match blood_pressure v with
  | Some bp => int64 (systolic bp) && int64 (diastolic bp)
  | None => true
  end.

(** Documents in insertion order.  [insert_one] stores the document,
    as the database keeps it, under the identifier the driver
    generates for it ([fresh]) unless it brings its own, and reports
    that identifier. *)
Definition Collection := list dict.

Definition insert_one (fresh : ObjectId) (doc : dict) (coll : Collection)
  : Collection * value :=
  match dict_get "_id" doc with
  | Some id => ((coll ++ [bson_doc doc])%list, id)
  | None =>
      ((coll ++ [("_id", VObjectId fresh) :: bson_doc doc])%list,
       VObjectId fresh)
  end.

(** The filter [{"patient_id": patient_id}] *)
Definition matches (pid : string) (doc : dict) : bool :=
  match dict_get "patient_id" doc with
  | Some (VStr s) => String.eqb s pid
  | _ => false
  end.

Definition find (pid : string) (coll : Collection) : list dict :=
  filter (matches pid) coll.

(** The order of sort keys.  Values of different kinds compare by the
    bracket of their kind (null, numbers, strings, documents, object
    identifiers, dates); time values compare as instants, strings
    byte-wise, integers and identifiers numerically.  Floats and
    embedded documents, which the service never stores under
    [timestamp], are ordered by their bracket only. *)
Definition bson_rank (v : value) : nat :=
  match v with
  | VNone => 1
  | VInt _ => 2
  | VFloat _ => 2
  | VStr _ => 3
  | VDict _ => 4
  | VObjectId _ => 7
  | VDatetime _ => 9
  end.

Definition bson_leb (a b : value) : bool :=
  match a, b with
  | VDatetime x, VDatetime y => x <=? y
  | VStr x, VStr y => String.leb x y
  | VInt x, VInt y => x <=? y
  | VObjectId x, VObjectId y => N.leb x y
  | _, _ => Nat.leb (bson_rank a) (bson_rank b)
  end.

(** [cursor.sort(key, -1)]: descending on the key, documents with equal
    keys left in their stored order. *)
Fixpoint insert_desc (key : string) (x : dict) (l : list dict) : list dict :=
  match l with
  | [] => [x]
  | y :: l' =>
      if bson_leb (py_get key y) (py_get key x)
      then x :: y :: l'
      else y :: insert_desc key x l'
  end.

Definition sort_desc (key : string) (l : list dict) : list dict :=
  fold_right (insert_desc key) [] l.

(** [a] may stand before [b] in a descending sort on [key]. *)
Definition desc (key : string) (a b : dict) : Prop :=
  bson_leb (py_get key b) (py_get key a) = true.

(** [find_one(filter, sort=[(key, -1)])] *)
Definition find_one (pid : string) (key : string) (coll : Collection)
  : option dict :=
  hd_error (sort_desc key (find pid coll)).

(** ** Responses and the framework

    A handler returns plain data, returns a [Response] object, raises
    an [HTTPException], or dies on an exception nobody handles. *)
Inductive body : Type :=
| BJson (v : value)
| BJsonArray (docs : list dict)
| BFile (path media_type filename : string)
| BText (s : string).

Record Response : Type := {
  status_code : Z;
  content : body
}.

Inductive outcome : Type :=
| Returned (docs : list dict)
| Responded (r : Response)
| Raised (code : Z) (detail : string)
| Crashed.

(** [JSONResponse(content)]: the constructor's [status_code] defaults
    to 200. *)
Definition JSONResponse (c : value) : Response :=
  {| status_code := 200; content := BJson c |}.

(** [FileResponse(path, media_type=..., filename=...)], status 200 *)
Definition FileResponse (path media_type filename : string) : Response :=
  {| status_code := 200; content := BFile path media_type filename |}.

(** What the framework can render as JSON: [json.dumps] is called with
    [allow_nan=False] and raises on an infinity or a NaN, and an object
    identifier has no JSON form. *)
Fixpoint json_ok (v : value) : bool :=
  match v with
  | VFloat f => PrimFloat.is_finite f
  | VObjectId _ => false
  | VDict kvs =>
      (fix items (l : list (string * value)) : bool :=
         match l with
         | [] => true
         | (_, x) :: l' => json_ok x && items l'
         end) kvs
  | _ => true
  end.

Definition renders (doc : dict) : bool :=
  forallb (fun kv => json_ok (snd kv)) doc.

(** What the framework sends for a handler's outcome.  The decorator's
    [status_code] is the status of the response the framework builds
    from returned data, when it can render them; a [Response] object
    the handler returns is sent as it is; an [HTTPException] becomes
    its status with a [detail] body; any other exception, that of the
    rendering included, is a 500. *)
Definition respond (decorator_status : option Z) (o : outcome) : Response :=
  match o with
  | Returned docs =>
      if forallb renders docs
      then {| status_code := match decorator_status with Some c => c | None => 200 end;
              content := BJsonArray docs |}
      else {| status_code := 500; content := BText "Internal Server Error" |}
  | Responded r => r
  | Raised code detail =>
      {| status_code := code; content := BJson (VDict [("detail", VStr detail)]) |}
  | Crashed =>
      {| status_code := 500; content := BText "Internal Server Error" |}
  end.

(** ** [POST /vitals] *)

Definition post_vitals (now : datetime) (fresh : ObjectId) (v : Vitals)
    (db : Collection) : Collection * outcome :=
  let v := match timestamp v with
           | None => set_timestamp v (Some now)
           | Some _ => v
           end in
  let doc := Vitals_dict v in
  let '(db', inserted_id) := insert_one fresh doc db in
  (db', Responded (JSONResponse (VDict
          [ ("message", VStr "Vitals saved");
            ("patient_id", VStr (patient_id v));
            ("id", VStr (py_str inserted_id)) ]))).

(** The route as decorated: [@app.post("/vitals", status_code=201)] *)
Definition route_post_vitals (now : datetime) (fresh : ObjectId) (v : Vitals)
    (db : Collection) : Collection * Response :=
  let '(db', o) := post_vitals now fresh v db in
  (db', respond (Some 201) o).

(** ** [GET /vitals/{patient_id}] *)

(** The loop body: [_id] to its string, a native time value to its
    ISO form.  [None] is the [KeyError] of [doc["_id"]]. *)
Definition jsonable (doc : dict) : option dict :=
  match dict_get "_id" doc with
  | None => None
  | Some id =>
      let doc := dict_set "_id" (VStr (py_str id)) doc in
      let ts := py_get "timestamp" doc in
      match ts with
      | VDatetime d => Some (dict_set "timestamp" (VStr (isoformat rt d)) doc)
      | _ => Some doc
      end
  end.

(** [async for doc in cursor: ...; docs.append(doc)] *)
Fixpoint collect (cursor : list dict) : option (list dict) :=
  match cursor with
  | [] => Some []
  | doc :: rest =>
      match jsonable doc with
      | None => None
      | Some d =>
          match collect rest with
          | None => None
          | Some ds => Some (d :: ds)
          end
      end
  end.

Definition get_vitals (pid : string) (db : Collection) : outcome :=
  let cursor := sort_desc "timestamp" (find pid db) in
  match collect cursor with
  | None => Crashed
  | Some [] => Raised 404 "No vitals for that patient"
  | Some docs => Returned docs
  end.

Definition route_get_vitals (pid : string) (db : Collection) : Response :=
  respond None (get_vitals pid db).

(** ** The PDF renderer *)

(** The calls made on the canvas, in the order they are made; the
    saved file is that list. *)
Inductive canvas_op : Type :=
| SetFont (psfontname : string) (size : Z)
| DrawString (x : Z) (y : float) (text : string)
| ShowPage
| Save.

Definition Canvas := list canvas_op.

(** The reports directory: the file saved at each path *)
Definition FS := list (string * Canvas).

Definition write_file (path : string) (c : Canvas) (fs : FS) : FS :=
  (path, c) :: fs.

Fixpoint read_file (path : string) (fs : FS) : option Canvas :=
  match fs with
  | [] => None
  | (p, c) :: fs' => if String.eqb p path then Some c else read_file path fs'
  end.

(** [reportlab.lib.units] and [reportlab.lib.pagesizes] *)
Definition inch : float := 72%float.
Definition cm : float := (inch / 2.54)%float.
Definition mm : float := (cm * 0.1)%float.
Definition A4 : float * float := ((210 * mm)%float, (297 * mm)%float).

Definition REPORTS_DIR : string := "reports".

(** [os.path.join(a, b)] and [os.path.basename(p)] on POSIX paths *)
Fixpoint ends_with_slash (s : string) : bool :=
  match s with
  | EmptyString => false
  | String c EmptyString => Ascii.eqb c "/"
  | String _ r => ends_with_slash r
  end.

Definition path_join (a b : string) : string :=
  match b with
  | String "/" _ => b
  | _ =>
      match a with
      | EmptyString => b
      | _ => if ends_with_slash a then a ++ b else a ++ "/" ++ b
      end
  end.

Fixpoint has_slash (s : string) : bool :=
  match s with
  | EmptyString => false
  | String c r => Ascii.eqb c "/" || has_slash r
  end.

Fixpoint basename (p : string) : string :=
  match p with
  | EmptyString => EmptyString
  | String c r =>
      if Ascii.eqb c "/" || has_slash r then basename r else p
  end.

(** The closure [draw_row], with the canvas and the [nonlocal y] it
    updates passed through. *)
Definition draw_row (left : Z) (label : string) (v : value)
    (st : Canvas * float) : Canvas * float :=
  let '(c, y) := st in
  ((c ++ [ SetFont "Helvetica-Bold" 10;
           DrawString left y (label ++ ":");
           SetFont "Helvetica" 10;
           DrawString (left + 160) y (py_str v) ])%list,
   (y - 20)%float).

(** The text of the blood-pressure row.  [if vitals.blood_pressure]
    holds for every model instance, whatever its fields: a pydantic
    model defines neither [__bool__] nor [__len__]. *)
Definition bp_str (vitals : Vitals) : string :=
  match blood_pressure vitals with
  | Some bp =>
      py_str (opt VInt (systolic bp)) ++ "/" ++
      py_str (opt VInt (diastolic bp)) ++ " mmHg"
  | None => "N/A"
  end.

Definition build_vitals_pdf (now : datetime) (pid : string) (vitals : Vitals)
    (fs : FS) : FS * string :=
  let ts := match timestamp vitals with
            | Some t => strftime rt t "%Y%m%d%H%M%S"
            | None => strftime rt now "%Y%m%d%H%M%S"
            end in
  let fname := pid ++ "_" ++ ts ++ ".pdf" in
  let path := path_join REPORTS_DIR fname in
  let '(width, height) := A4 in
  let left := 50 in
  let top := (height - 50)%float in
  let c : Canvas :=
    [ SetFont "Helvetica-Bold" 16;
      DrawString left top
        ("Vitals Report - " ++
         py_str (py_or (opt VStr (patient_name vitals)) (VStr pid)));
      SetFont "Helvetica" 11;
      DrawString left (top - 30)%float ("Patient ID: " ++ pid);
      DrawString left (top - 50)%float
        ("Timestamp: " ++
         match timestamp vitals with
         | Some t => isoformat rt t
         | None => "N/A"
         end) ] in
  let y := (top - 90)%float in
  let st := (c, y) in
  let st := draw_row left "Heart Rate (bpm)"
              (py_or (opt VInt (heart_rate vitals)) (VStr "N/A")) st in
  let st := draw_row left "Blood Pressure" (VStr (bp_str vitals)) st in
  let st := draw_row left "Respiratory Rate (breaths/min)"
              (py_or (opt VInt (respiratory_rate vitals)) (VStr "N/A")) st in
  let st := draw_row left "Temperature (Â°C)"
              (py_or (opt VFloat (temperature_c vitals)) (VStr "N/A")) st in
  let st := draw_row left "Oxygen Saturation (%)"
              (py_or (opt VInt (oxygen_saturation vitals)) (VStr "N/A")) st in
  let st := draw_row left "Notes"
              (py_or (opt VStr (notes vitals)) (VStr "-")) st in
  let c := (fst st ++ [ShowPage; Save])%list in
  (write_file path c fs, path).

(** ** [GET /vitals/{patient_id}/pdf] *)

(** The timestamp of the raw document made fit for the model: a string
    is parsed, and replaced by the clock reading when it does not
    parse; anything else is left as stored. *)
Definition normalize (now : datetime) (doc : dict) : dict :=
  let doc := dict_pop "_id" doc in
  let ts := py_get "timestamp" doc in
  match ts with
  | VStr s =>
      match fromisoformat rt s with
      | Some d => dict_set "timestamp" (VDatetime d) doc
      | None => dict_set "timestamp" (VDatetime now) doc
      end
  | _ => doc
  end.

Definition get_vitals_pdf (now : datetime) (pid : string) (db : Collection)
    (fs : FS) : FS * outcome :=
  match find_one pid "timestamp" db with
  | None => (fs, Raised 404 "No vitals to make PDF")
  | Some [] => (fs, Raised 404 "No vitals to make PDF")
  | Some doc =>
      let doc := normalize now doc in
      match Vitals_validate doc with
      | None => (fs, Crashed)
      | Some v =>
          let '(fs', pdf_path) := build_vitals_pdf now pid v fs in
          (fs', Responded
                  (FileResponse pdf_path "application/pdf" (basename pdf_path)))
      end
  end.

Definition route_get_vitals_pdf (now : datetime) (pid : string)
    (db : Collection) (fs : FS) : FS * Response :=
  let '(fs', o) := get_vitals_pdf now pid db fs in
  (fs', respond None o).

(** ** Reading a rendered page

    A row is what [draw_row] leaves on the canvas: a label in the bold
    10-point face followed by a value in the regular 10-point face. *)
Definition is_font (name : string) (size : Z) (op : canvas_op) : bool :=
  match op with
  | SetFont n s => String.eqb n name && (s =? size)
  | _ => false
  end.

Fixpoint rows (c : Canvas) : list (string * string) :=
  match c with
  | [] => []
  | f1 :: tl =>
      match tl with
      | DrawString _ _ l :: f2 :: DrawString _ _ v :: rest =>
          if is_font "Helvetica-Bold" 10 f1 && is_font "Helvetica" 10 f2
          then (l, v) :: rows rest
          else rows tl
      | _ => rows tl
      end
  end.

Fixpoint row (label : string) (rs : list (string * string)) : option string :=
  match rs with
  | [] => None
  | (l, v) :: rs' => if String.eqb l label then Some v else row label rs'
  end.

(** The rows of the file a response serves *)
Definition served_rows (fs : FS) (r : Response) : option (list (string * string)) :=
  match content r with
  | BFile path _ _ => option_map rows (read_file path fs)
  | _ => None
  end.

(** The outcome of a successful report: the file is written and then
    served under its base name. *)
Definition report (now : datetime) (pid : string) (v : Vitals) (fs : FS)
  : FS * outcome :=
  let '(fs', pdf_path) := build_vitals_pdf now pid v fs in
  (fs', Responded (FileResponse pdf_path "application/pdf" (basename pdf_path))).

(** The page the renderer saves for a record *)
Definition page (now : datetime) (pid : string) (v : Vitals) : option Canvas :=
  let '(fs', pdf_path) := build_vitals_pdf now pid v [] in
  read_file pdf_path fs'.

(** ** The service over time

    Only [post_vitals] changes the collection, so the collections the
    service can reach are those a sequence of create requests builds
    from the empty one.  A request carries the clock reading and the
    identifier the driver generates while it is served. *)
Record request : Type := {
  clock : datetime;
  new_id : ObjectId;
  payload : Vitals
}.

Definition serve_posts (reqs : list request) (db : Collection) : Collection :=
  fold_left
    (fun db r => fst (post_vitals (clock r) (new_id r) (payload r) db))
    reqs db.

(** The record a request leaves in the collection, its timestamp, the
    stored document and the document as the list operation shows it. *)
Definition stored_timestamp (r : request) : datetime :=
  cut_ms match timestamp (payload r) with
         | Some t => t
         | None => clock r
         end.

Definition stored (r : request) : Vitals :=
  set_timestamp (payload r) (Some (stored_timestamp r)).

Definition stored_doc (r : request) : dict :=
  ("_id", VObjectId (new_id r)) :: Vitals_dict (stored r).

Definition listed_doc (r : request) : dict :=
  ("_id", VStr (str_ObjectId (new_id r))) ::
  Vitals_dict_with (VStr (isoformat rt (stored_timestamp r))) (stored r).

Definition is_for (pid : string) (r : request) : bool :=
  String.eqb (patient_id (payload r)) pid.

(** [a] was taken after [b]; [a] was not taken before [b]. *)
Definition newer (a b : request) : Prop :=
  stored_timestamp b < stored_timestamp a.

Definition not_older (a b : request) : Prop :=
  stored_timestamp b <= stored_timestamp a.

(** The fields of the record, and the optional ones a body leaves out *)
Definition FIELDS : list string :=
  [ "patient_id"; "patient_name"; "timestamp"; "heart_rate"; "blood_pressure";
    "respiratory_rate"; "temperature_c"; "oxygen_saturation"; "notes" ].

Definition absent {A : Type} (name : string) (o : option A) : list string :=
  match o with
  | None => [name]
  | Some _ => []
  end.

Definition absent_inputs (v : Vitals) : list string :=
  (absent "patient_name" (patient_name v) ++
   absent "timestamp" (timestamp v) ++
   absent "heart_rate" (heart_rate v) ++
   absent "blood_pressure" (blood_pressure v) ++
   absent "respiratory_rate" (respiratory_rate v) ++
   absent "temperature_c" (temperature_c v) ++
   absent "oxygen_saturation" (oxygen_saturation v) ++
   absent "notes" (notes v))%list.

(** A document holds every field of the record, and null under every
    optional field the body [v] left out. *)
Definition nulls_for_absent (v : Vitals) (doc : dict) : Prop :=
  (forall k, In k FIELDS -> dict_get k doc <> None) /\
  (forall k, In k (absent_inputs v) -> dict_get k doc = Some VNone).

(** A document as the database hands it out carries an [_id]. *)
Definition has_id (doc : dict) : Prop := dict_get "_id" doc <> None.

(** A stored document the list operation can show: its keys are
    distinct, as in every dict, it carries an [_id], and what it holds
    besides has a JSON form (finite floats, no object identifiers). *)
Definition well_stored (doc : dict) : Prop :=
  NoDup (keys doc) /\
  has_id doc /\
  forall k x, In (k, x) doc -> k <> "_id" -> json_ok x = true.

(** The document is one of patient [pid]. *)
Definition of_patient (pid : string) (doc : dict) : Prop :=
  dict_get "patient_id" doc = Some (VStr pid).

(** The floats of a body are finite. *)
Definition finite_body (v : Vitals) : bool :=
  match temperature_c v with
  | Some f => PrimFloat.is_finite f
  | None => true
  end.

(** A record of the service found in the collection with [ts] stored
    under [timestamp] *)
Definition raw_doc (id : value) (v : Vitals) (ts : value) : dict :=
  ("_id", id) :: dict_set "timestamp" ts (Vitals_dict v).

(** The text an f-string gives an optional integer *)
Definition shown (o : option Z) : string :=
  match o with
  | Some z => str_int z
  | None => "None"
  end.

End Service.

(** ** More readings of a page *)

(** Every text drawn on the canvas, in drawing order, and the number of
    pages the canvas closes. *)
Fixpoint texts (c : Canvas) : list string :=
  match c with
  | [] => []
  | DrawString _ _ t :: c' => t :: texts c'
  | _ :: c' => texts c'
  end.

Fixpoint pages (c : Canvas) : nat :=
  match c with
  | [] => O
  | ShowPage :: c' => S (pages c')
  | _ :: c' => pages c'
  end.

(** ** Configuration and startup *)

(** The module level: [MONGO_URI = os.getenv("MONGO_URI")], and the
    [RuntimeError] when it is unset or empty.  [None] is that error. *)
Definition MONGO_URI (getenv : option string) : option string :=
  match getenv with
  | Some uri => if truthy (VStr uri) then Some uri else None
  | None => None
  end.

(** The calls [startup_db_client] makes on the driver *)
Inductive driver_call : Type :=
| Ping
| CreateIndex (database collection key : string).

(** What [get_default_database()] does for the URI at hand: the
    database the URI names, a [ConfigurationError], or [None]. *)
Inductive default_database : Type :=
| Named (name : string)
| ConfigurationError
| NoDatabase.

(** The globals [mongo_client] (the URI the client was made for) and
    [db] (the name of the database in use) *)
Record App : Type := {
  mongo_client : option string;
  db : option string
}.

(** [startup_db_client], for a URI the driver makes a client of and
    index creations that go through: the globals afterwards, the calls
    made, and the text of the [RuntimeError] when it raises.  [ping] is
    the text of the exception the ping raises, if it raises.  The
    exceptions of the client's constructor and of [create_index] are
    accounted for in [start]. *)
Definition startup_db_client (uri : string) (ping : option string)
    (default : default_database) (app : App)
  : App * list driver_call * option string :=
  let app := {| mongo_client := Some uri; db := db app |} in
  match ping with
  | Some e =>
      (app, [Ping],
       Some ("Could not connect to MongoDB. Check MONGO_URI and network. ("
             ++ e ++ ")"))
  | None =>
      let name := match default with
                  | Named name => Some name
                  | ConfigurationError => Some "vitals_db"
                  | NoDatabase => None
                  end in
      let name := match name with
                  | Some name => name
                  | None => "vitals_db"
                  end in
      ({| mongo_client := mongo_client app; db := Some name |},
       [Ping; CreateIndex name "vitals" "patient_id";
        CreateIndex name "vitals" "timestamp"],
       None)
  end.

(** The process from its start: the module is loaded, then the startup
    event runs on the initial globals.  [client] is the exception the
    constructor [AsyncIOMotorClient(MONGO_URI)] raises on a URI the
    driver refuses, [index] the exception a [create_index] raises, if
    they raise.  [None] when anything raises. *)
Definition start (getenv client ping : option string)
    (default : default_database) (index : option string)
  : option (App * list driver_call) :=
  match MONGO_URI getenv with
  | None => None
  | Some uri =>
      match client with
      | Some _ => None
      | None =>
          match startup_db_client uri ping default
                  {| mongo_client := None; db := None |} with
          | (app, calls, None) =>
              match index with
              | Some _ => None
              | None => Some (app, calls)
              end
          | (_, _, Some _) => None
          end
      end
  end.

Section ReportName.

Context (rt : Runtime).

(** The compact stamp in a report's file name: that of the record's
    timestamp, or of the clock reading when the record has none. *)
Definition stamp (now : datetime) (v : Vitals) : string :=
  strftime rt
    match timestamp v with
    | Some t => t
    | None => now
    end
    "%Y%m%d%H%M%S".

(** The name shown in the title: the patient's name unless it is
    missing or empty. *)
Definition title_name (pid : string) (v : Vitals) : string :=
  match patient_name v with
  | Some n => if String.eqb n "" then pid else n
  | None => pid
  end.

(** The text of a row: an integer, a float, the notes, the blood
    pressure.  A zero and an empty string read like a missing value. *)
Definition int_text (o : option Z) : string :=
  match o with
  | Some n => if n =? 0 then "N/A" else str_int n
  | None => "N/A"
  end.

Definition float_text (o : option float) : string :=
  match o with
  | Some f => if PrimFloat.eqb f 0%float then "N/A" else str_float rt f
  | None => "N/A"
  end.

Definition notes_text (o : option string) : string :=
  match o with
  | Some n => if String.eqb n "" then "-" else n
  | None => "-"
  end.

Definition bp_text (o : option BloodPressure) : string :=
  match o with
  | Some bp => shown (systolic bp) ++ "/" ++ shown (diastolic bp) ++ " mmHg"
  | None => "N/A"
  end.

(** Everything a report of the record [v] reads, top to bottom. *)
Definition sheet (pid : string) (v : Vitals) : list string :=
  [ "Vitals Report - " ++ title_name pid v;
    "Patient ID: " ++ pid;
    "Timestamp: " ++ match timestamp v with
                     | Some t => isoformat rt t
                     | None => "N/A"
                     end;
    "Heart Rate (bpm):"; int_text (heart_rate v);
    "Blood Pressure:"; bp_text (blood_pressure v);
    "Respiratory Rate (breaths/min):"; int_text (respiratory_rate v);
    "Temperature (Â°C):"; float_text (temperature_c v);
    "Oxygen Saturation (%):"; int_text (oxygen_saturation v);
    "Notes:"; notes_text (notes v) ].

(** The name of the file a report of [v] is saved under. *)
Definition report_name (now : datetime) (pid : string) (v : Vitals) : string :=
  pid ++ "_" ++ stamp now v ++ ".pdf".

End ReportName.

(** A name the filesystem takes for a file: at most 255 bytes, at least
    one, none of them a slash or a NUL.  The reports directory of the
    embedding takes every name; a statement that a report is written
    is made for names the filesystem takes. *)
Fixpoint has_nul (s : string) : bool :=
  match s with
  | EmptyString => false
  | String c r => Ascii.eqb c Ascii.zero || has_nul r
  end.

Definition NAME_MAX : nat := 255.

Definition filesystem_takes (name : string) : bool :=
  negb (has_slash name) && negb (has_nul name) &&
  Nat.leb 1 (String.length name) && Nat.leb (String.length name) NAME_MAX.

(** ** Sample data *)

(** A runtime for running the handlers on concrete requests: times are
    shown by their microsecond count, and the only string that parses
    as a time is ["1970-01-01T00:00:00"]. *)
Definition sample_rt : Runtime :=
  {| isoformat := fun d => "T" ++ str_int d;
     strftime := fun d _ => str_int d;
     fromisoformat :=
       fun s => if String.eqb s "1970-01-01T00:00:00" then Some 0 else None;
     str_float := fun _ => "float";
     str_datetime := fun d => "T" ++ str_int d;
     str_dict := fun _ => "{...}";
     lax_str := fun _ => None;
     lax_int := fun _ => None;
     lax_float := fun _ => None;
     lax_datetime := fun _ => None |}.

(** The body [{"patient_id": pid}] *)
Definition bare (pid : string) : Vitals :=
  {| patient_id := pid;
     patient_name := None;
     timestamp := None;
     heart_rate := None;
     blood_pressure := None;
     respiratory_rate := None;
     temperature_c := None;
     oxygen_saturation := None;
     notes := None |}.

(** The body [{"patient_id": pid, "heart_rate": hr}] *)
Definition with_heart_rate (pid : string) (hr : Z) : Vitals :=
  {| patient_id := pid;
     patient_name := None;
     timestamp := None;
     heart_rate := Some hr;
     blood_pressure := None;
     respiratory_rate := None;
     temperature_c := None;
     oxygen_saturation := None;
     notes := None |}.

(** The body [{"patient_id": pid, "timestamp": t, "blood_pressure": bp}] *)
Definition with_blood_pressure (pid : string) (t : option datetime)
    (bp : BloodPressure) : Vitals :=
  {| patient_id := pid;
     patient_name := None;
     timestamp := t;
     heart_rate := None;
     blood_pressure := Some bp;
     respiratory_rate := None;
     temperature_c := None;
     oxygen_saturation := None;
     notes := None |}.


(** Two readings of patient [p1], taken at instants 1000 and 2000 *)
Definition first_request : request :=
  {| clock := 1000; new_id := 1%N; payload := with_heart_rate "p1" 72 |}.

Definition second_request : request :=
  {| clock := 2000; new_id := 2%N;
     payload := with_blood_pressure "p1" None
                  {| systolic := Some 120; diastolic := Some 80 |} |}.

Definition sample_db : Collection :=
  serve_posts sample_rt [first_request; second_request] [].

(** The body [{"patient_id": pid, "temperature_c": f}] *)
Definition with_temperature (pid : string) (f : float) : Vitals :=
  {| patient_id := pid;
     patient_name := None;
     timestamp := None;
     heart_rate := None;
     blood_pressure := None;
     respiratory_rate := None;
     temperature_c := Some f;
     oxygen_saturation := None;
     notes := None |}.



(** A reading of patient [p1] with a NaN temperature, taken at 2000 *)
Definition nan_request : request :=
  {| clock := 2000; new_id := 5%N; payload := with_temperature "p1" nan |}.

(** * Properties *)

Local Open Scope list_scope.

Example str_int_72 : str_int 72 = "72".
Proof. reflexivity. Qed.

Example str_int_0 : str_int 0 = "0".
Proof. reflexivity. Qed.

Example str_int_negative : str_int (-5) = "-5".
Proof. reflexivity. Qed.

Example str_ObjectId_255 : str_ObjectId 255%N = "0000000000000000000000ff".
Proof. reflexivity. Qed.

Example basename_nested : basename "reports/a/b.pdf" = "b.pdf".
Proof. reflexivity. Qed.

(** ** Dictionaries *)

Lemma dict_get_set_same k v d : dict_get k (dict_set k v d) = Some v.
Proof.
  induction d as [|[k' v'] d IH]; simpl.
  - now rewrite String.eqb_refl.
  - destruct (String.eqb k' k) eqn:E; simpl; rewrite E; auto.
Qed.

Lemma dict_get_set_other k k' v d :
  k <> k' -> dict_get k (dict_set k' v d) = dict_get k d.
Proof.
  intros Hk. induction d as [|[k0 v0] d IH]; simpl.
  - destruct (String.eqb k' k) eqn:E; auto.
    apply String.eqb_eq in E. congruence.
  - destruct (String.eqb k0 k') eqn:E; simpl.
    + apply String.eqb_eq in E. subst k0.
      destruct (String.eqb k' k) eqn:E'; auto.
      apply String.eqb_eq in E'. congruence.
    + now rewrite IH.
Qed.

Lemma dict_get_pop_other k k' d :
  k <> k' -> dict_get k (dict_pop k' d) = dict_get k d.
Proof.
  intros Hk. induction d as [|[k0 v0] d IH]; simpl; auto.
  destruct (String.eqb k0 k') eqn:E; simpl.
  - apply String.eqb_eq in E. subst k0.
    destruct (String.eqb k' k) eqn:E'; auto.
    apply String.eqb_eq in E'. congruence.
  - now rewrite IH.
Qed.

Section Properties.

Context (rt : Runtime).

(** ** The record model *)

Lemma validate_optional_some {A : Type} (own lax : value -> option A)
    (inj : A -> value) (o : option A) :
  (forall a, inj a <> VNone) ->
  (forall a, own (inj a) = Some a) ->
  validate_optional own lax (Some (opt inj o)) = Some o.
Proof.
  intros Hn Hown. destruct o as [a|]; simpl; auto.
  specialize (Hn a). specialize (Hown a).
  destruct (inj a); try congruence; now rewrite Hown.
Qed.

Lemma BloodPressure_validate_dict bp :
  BloodPressure_validate rt (BloodPressure_dict bp) = Some bp.
Proof.
  destruct bp as [s d]. unfold BloodPressure_validate, BloodPressure_dict.
  cbn [dict_get String.eqb Ascii.eqb Bool.eqb systolic diastolic].
  rewrite !validate_optional_some by (intros; simpl; congruence).
  reflexivity.
Qed.

(** A record survives the trip through its dict. *)
Lemma Vitals_validate_dict v : Vitals_validate rt (Vitals_dict v) = Some v.
Proof.
  destruct v. unfold Vitals_validate, Vitals_dict.
  cbn [dict_get String.eqb Ascii.eqb Bool.eqb validate_patient_id
       patient_id patient_name timestamp heart_rate blood_pressure
       respiratory_rate temperature_c oxygen_saturation notes].
  rewrite !validate_optional_some;
    try (intros; simpl; congruence); try reflexivity.
  intros bp. simpl. apply BloodPressure_validate_dict.
Qed.

(** ** Creating a reading *)

(** What [post_vitals] does, in one equation: the stored document is
    appended and the confirmation is a [JSONResponse]. *)
Lemma post_vitals_eq now fresh v db :
  post_vitals rt now fresh v db =
  ((db ++ [stored_doc {| clock := now; new_id := fresh; payload := v |}])%list,
   Responded (JSONResponse (VDict
     [ ("message", VStr "Vitals saved");
       ("patient_id", VStr (patient_id v));
       ("id", VStr (str_ObjectId fresh)) ]))).
Proof.
  destruct v as [pid pn ts hr bp rr tc ox nt].
  unfold post_vitals, stored_doc, stored, stored_timestamp.
  cbn [timestamp payload clock new_id].
  destruct ts as [t|];
    cbn [set_timestamp patient_id patient_name timestamp heart_rate
         blood_pressure respiratory_rate temperature_c oxygen_saturation notes];
    unfold insert_one; cbn [Vitals_dict dict_get String.eqb Ascii.eqb Bool.eqb
                            patient_id patient_name timestamp heart_rate
                            blood_pressure respiratory_rate temperature_c
                            oxygen_saturation notes];
    destruct pn, hr, bp as [[[sy|] [di|]]|], rr, tc, ox, nt; reflexivity.
Qed.

Lemma serve_posts_eq reqs db :
  serve_posts rt reqs db = (db ++ map stored_doc reqs)%list.
Proof.
  unfold serve_posts. revert db.
  induction reqs as [|[now fresh v] reqs IH]; intros db; cbn [fold_left map].
  - now rewrite app_nil_r.
  - rewrite IH. cbn [clock new_id payload]. rewrite post_vitals_eq.
    cbn [fst]. now rewrite <- app_assoc.
Qed.

Lemma matches_stored_doc pid r : matches pid (stored_doc r) = is_for pid r.
Proof. reflexivity. Qed.

Lemma find_stored pid reqs :
  find pid (map stored_doc reqs) = map stored_doc (filter (is_for pid) reqs).
Proof.
  unfold find. induction reqs as [|r reqs IH]; simpl; auto.
  rewrite matches_stored_doc. destruct (is_for pid r); simpl; now rewrite IH.
Qed.

Lemma find_app pid db1 db2 :
  find pid (db1 ++ db2) = find pid db1 ++ find pid db2.
Proof. apply filter_app. Qed.

(** ** Sorting *)

Lemma bson_leb_total a b : bson_leb a b = true \/ bson_leb b a = true.
Proof.
  destruct a, b; simpl; auto;
    try (destruct (Z.leb_spec z z0); [auto | right; apply Z.leb_le; lia]).
  - apply String.leb_total.
  - destruct (Z.leb_spec d d0); [auto | right; apply Z.leb_le; lia].
  - destruct (N.leb_spec o o0); [auto | right; apply N.leb_le; lia].
Qed.

Lemma insert_desc_perm key x l : Permutation (insert_desc key x l) (x :: l).
Proof.
  induction l as [|y l IH]; simpl; auto.
  destruct (bson_leb (py_get key y) (py_get key x)); auto.
  rewrite IH. apply perm_swap.
Qed.

Lemma sort_desc_perm key l : Permutation (sort_desc key l) l.
Proof.
  induction l as [|x l IH]; simpl; auto.
  rewrite insert_desc_perm. now constructor.
Qed.

Lemma insert_desc_sorted key x l :
  Sorted (desc key) l -> Sorted (desc key) (insert_desc key x l).
Proof.
  induction l as [|y l IH]; intros Hs; simpl.
  - repeat constructor.
  - destruct (bson_leb (py_get key y) (py_get key x)) eqn:E.
    + constructor; auto.
    + apply Sorted_inv in Hs. destruct Hs as [Hs Hhd].
      constructor; auto.
      assert (Hyx : desc key y x).
      { unfold desc. destruct (bson_leb_total (py_get key x) (py_get key y)); congruence. }
      destruct l as [|z l]; simpl.
      * now constructor.
      * destruct (bson_leb (py_get key z) (py_get key x)); constructor; auto.
        now inversion Hhd.
Qed.

Lemma sort_desc_sorted key l : Sorted (desc key) (sort_desc key l).
Proof.
  induction l as [|x l IH]; simpl.
  - constructor.
  - now apply insert_desc_sorted.
Qed.

Lemma sort_desc_nil key l : sort_desc key l = [] -> l = [].
Proof.
  intros H. apply Permutation_nil. rewrite <- H. apply sort_desc_perm.
Qed.

(** ** Listing *)

Lemma jsonable_has_id doc : has_id doc -> exists d, jsonable rt doc = Some d.
Proof.
  unfold has_id, jsonable. intros H.
  destruct (dict_get "_id" doc) as [id|]; [|congruence].
  destruct (py_get "timestamp" (dict_set "_id" (VStr (py_str rt id)) doc));
    eauto.
Qed.

Lemma collect_Forall2 l :
  Forall has_id l ->
  exists out, collect rt l = Some out /\
              Forall2 (fun d o => jsonable rt d = Some o) l out.
Proof.
  induction 1 as [|d l Hd Hl IH]; simpl.
  - exists []. split; auto.
  - destruct (jsonable_has_id d Hd) as [o Ho].
    destruct IH as [out [Hc Hf]].
    exists (o :: out). rewrite Ho, Hc. split; auto.
Qed.

Lemma collect_map (f : request -> dict) (g : request -> dict) l :
  (forall r, jsonable rt (f r) = Some (g r)) ->
  collect rt (map f l) = Some (map g l).
Proof.
  intros H. induction l as [|r l IH]; simpl; auto.
  now rewrite H, IH.
Qed.

Lemma jsonable_stored_doc r : jsonable rt (stored_doc r) = Some (listed_doc rt r).
Proof. destruct r as [now fresh v]. reflexivity. Qed.

Lemma Forall_has_id_sorted pid db :
  Forall has_id db -> Forall has_id (sort_desc "timestamp" (find pid db)).
Proof.
  intros H. rewrite Forall_forall in *. intros d Hd.
  apply (Permutation_in _ (sort_desc_perm "timestamp" (find pid db))) in Hd.
  apply filter_In in Hd. now apply H.
Qed.

Lemma has_id_stored_doc r : has_id (stored_doc r).
Proof. unfold has_id, stored_doc. simpl. congruence. Qed.

Lemma Forall2_In_l {A B : Type} (R : A -> B -> Prop) l1 l2 a :
  Forall2 R l1 l2 -> In a l1 -> exists b, In b l2 /\ R a b.
Proof.
  induction 1 as [|x y l1 l2 Hxy Hl IH]; simpl; [tauto|].
  intros [->|Hin].
  - exists y. auto.
  - destruct (IH Hin) as [b [Hb Hr]]. exists b. auto.
Qed.

Lemma get_vitals_collected pid db out :
  collect rt (sort_desc "timestamp" (find pid db)) = Some out ->
  out <> [] ->
  forallb renders out = true ->
  route_get_vitals rt pid db = {| status_code := 200; content := BJsonArray out |}.
Proof.
  intros Hc Hne Hr. unfold route_get_vitals, get_vitals. rewrite Hc.
  destruct out; [congruence|]. unfold respond. now rewrite Hr.
Qed.

Lemma in_dict_set k v d k' x :
  NoDup (keys d) ->
  In (k', x) (dict_set k v d) ->
  (k' = k /\ x = v) \/ (k' <> k /\ In (k', x) d).
Proof.
  unfold keys. induction d as [|[k0 v0] d IH]; simpl; intros Hnd Hin.
  - destruct Hin as [E|[]]. injection E as <- <-. auto.
  - inversion Hnd as [|a l Hnotin Hnd']; subst.
    destruct (String.eqb_spec k0 k) as [->|Hk]; simpl in Hin.
    + destruct Hin as [E|Hin]; [injection E as <- <-; auto|].
      right. split; [|auto]. intros ->. apply Hnotin.
      change k with (fst (k, x)). now apply in_map.
    + destruct Hin as [E|Hin]; [injection E as <- <-; auto|].
      destruct (IH Hnd' Hin) as [H|[H1 H2]]; auto.
Qed.

Lemma keys_dict_set_present k x d :
  dict_get k d <> None -> keys (dict_set k x d) = keys d.
Proof.
  unfold keys. induction d as [|[k' v'] d IH]; simpl; [congruence|].
  destruct (String.eqb k' k); simpl; [reflexivity|].
  intros H. now rewrite IH.
Qed.

Lemma renders_forall doc :
  (forall k x, In (k, x) doc -> json_ok x = true) -> renders doc = true.
Proof.
  intros H. apply forallb_forall. intros [k x] Hin. simpl. eauto.
Qed.

(** A well-stored document has a listed form, and that form renders. *)
Lemma well_stored_listed doc :
  well_stored doc ->
  exists d, jsonable rt doc = Some d /\ renders d = true.
Proof.
  intros [Hnd [Hid Hok]]. unfold has_id in Hid. unfold jsonable.
  destruct (dict_get "_id" doc) as [id|] eqn:Eid; [|congruence].
  set (doc1 := dict_set "_id" (VStr (py_str rt id)) doc).
  assert (Hok1 : forall k x, In (k, x) doc1 -> json_ok x = true).
  { intros k x Hin. destruct (in_dict_set _ _ _ _ _ Hnd Hin) as [[_ ->]|[Hk Hin']];
      [reflexivity | eauto]. }
  assert (Hnd1 : NoDup (keys doc1)).
  { unfold doc1. rewrite keys_dict_set_present; [assumption | congruence]. }
  destruct (py_get "timestamp" doc1);
    try (eexists; split; [reflexivity | now apply renders_forall]).
  eexists. split; [reflexivity|]. apply renders_forall.
  intros k x Hin. destruct (in_dict_set _ _ _ _ _ Hnd1 Hin) as [[_ ->]|[Hk Hin']];
    [reflexivity | eauto].
Qed.

Lemma collect_well_stored l :
  Forall well_stored l ->
  exists out, collect rt l = Some out /\
              Forall2 (fun d o => jsonable rt d = Some o) l out /\
              forallb renders out = true.
Proof.
  induction 1 as [|d l Hd Hl IH]; simpl.
  - exists []. repeat split. constructor.
  - destruct (well_stored_listed d Hd) as [o [Ho Hr]].
    destruct IH as [out [Hc [Hf Hrs]]].
    exists (o :: out). rewrite Ho, Hc. repeat split; auto.
    simpl. now rewrite Hr, Hrs.
Qed.

Lemma matches_of_patient pid doc : matches pid doc = true <-> of_patient pid doc.
Proof.
  unfold matches, of_patient. split.
  - destruct (dict_get "patient_id" doc) as [[]|]; try discriminate.
    intros H. apply String.eqb_eq in H. now subst.
  - intros ->. apply String.eqb_refl.
Qed.

Lemma in_cursor pid db doc :
  In doc (sort_desc "timestamp" (find pid db)) <->
  In doc db /\ of_patient pid doc.
Proof.
  rewrite <- matches_of_patient. split.
  - intros H. apply (Permutation_in _ (sort_desc_perm _ _)) in H.
    now apply filter_In in H.
  - intros H. apply (Permutation_in _ (Permutation_sym (sort_desc_perm _ _))).
    now apply filter_In.
Qed.

Lemma cursor_well_stored pid db :
  (forall doc, In doc db -> of_patient pid doc -> well_stored doc) ->
  Forall well_stored (sort_desc "timestamp" (find pid db)).
Proof.
  intros H. apply Forall_forall. intros doc Hd.
  apply in_cursor in Hd. destruct Hd. auto.
Qed.

(** C1: the confirmation of a create request carries exactly the keys
    [message], [patient_id] and [id], the last being the string form of
    the identifier the insert assigned; but it is sent with the status
    of the [JSONResponse] the handler builds, 200, and not with the 201
    of the decorator. *)
Theorem post_vitals_responds_200 now fresh v db :
  snd (route_post_vitals rt now fresh v db) =
  {| status_code := 200;
     content := BJson (VDict
       [ ("message", VStr "Vitals saved");
         ("patient_id", VStr (patient_id v));
         ("id", VStr (str_ObjectId fresh)) ]) |}.
Proof.
  unfold route_post_vitals. rewrite post_vitals_eq. reflexivity.
Qed.

Lemma Forall2_In_back {A B : Type} (R : A -> B -> Prop) l1 l2 b :
  Forall2 R l1 l2 -> In b l2 -> exists a, In a l1 /\ R a b.
Proof.
  induction 1 as [|x y l1 l2 Hxy Hl IH]; simpl; [tauto|].
  intros [->|Hin].
  - exists x. auto.
  - destruct (IH Hin) as [a [Ha Hr]]. exists a. auto.
Qed.

Lemma jsonable_of_patient pid doc d :
  jsonable rt doc = Some d -> of_patient pid doc -> of_patient pid d.
Proof.
  unfold jsonable, of_patient.
  destruct (dict_get "_id" doc) as [id|]; [|discriminate].
  intros H Hp.
  destruct (py_get "timestamp" (dict_set "_id" (VStr (py_str rt id)) doc));
    injection H as <-;
    rewrite ?(dict_get_set_other "patient_id" "timestamp") by discriminate;
    rewrite dict_get_set_other by discriminate; exact Hp.
Qed.

Lemma find_none pid db :
  (forall doc, In doc db -> ~ of_patient pid doc) -> find pid db = [].
Proof.
  intros H. unfold find. induction db as [|doc db IH]; simpl; auto.
  destruct (matches pid doc) eqn:E.
  - apply matches_of_patient in E. exfalso. apply (H doc); simpl; auto.
  - apply IH. intros d Hd. apply H. now right.
Qed.

(** C4: when no stored document carries the patient id, the listing
    answers 404.  When some document does, and the patient's documents
    can be rendered as JSON, it answers 200 with a non-empty array:
    every entry is the listed form of a stored document of that
    patient, and every stored document of that patient has its entry. *)
Theorem get_vitals_404_iff_no_record pid db :
  (forall doc, In doc db -> of_patient pid doc -> well_stored doc) ->
  ((forall doc, In doc db -> ~ of_patient pid doc) ->
   route_get_vitals rt pid db =
   {| status_code := 404;
      content := BJson (VDict [("detail", VStr "No vitals for that patient")]) |})
  /\
  ((exists doc, In doc db /\ of_patient pid doc) ->
   exists docs,
     docs <> [] /\
     route_get_vitals rt pid db =
     {| status_code := 200; content := BJsonArray docs |} /\
     Forall (fun d =>
               of_patient pid d /\
               exists doc, In doc db /\ of_patient pid doc /\
                           jsonable rt doc = Some d) docs /\
     (forall doc, In doc db -> of_patient pid doc ->
                  exists d, In d docs /\ jsonable rt doc = Some d)).
Proof.
  intros Hws. split.
  - intros Hnone. unfold route_get_vitals, get_vitals.
    now rewrite (find_none pid db Hnone).
  - intros [doc0 [Hin0 Hp0]].
    destruct (collect_well_stored _ (cursor_well_stored pid db Hws))
      as [out [Hc [Hf Hr]]].
    assert (Hall : forall doc, In doc db -> of_patient pid doc ->
                               exists d, In d out /\ jsonable rt doc = Some d).
    { intros doc Hin Hp.
      apply (Forall2_In_l _ _ _ _ Hf). now apply in_cursor. }
    assert (Hne : out <> []).
    { destruct (Hall doc0 Hin0 Hp0) as [d [Hd _]]. intros ->. inversion Hd. }
    exists out. split; [exact Hne|]. split; [now apply get_vitals_collected|].
    split; [|exact Hall].
    apply Forall_forall. intros d Hd.
    destruct (Forall2_In_back _ _ _ _ Hf Hd) as [doc [Hdoc Hj]].
    apply in_cursor in Hdoc. destruct Hdoc as [Hin Hp].
    split; [now apply (jsonable_of_patient pid doc d) | eauto].
Qed.

Lemma cut_ms_bounds d : 0 <= d - cut_ms d < 1000.
Proof.
  unfold cut_ms.
  pose proof (Z.div_mod d 1000 ltac:(lia)).
  pose proof (Z.mod_pos_bound d 1000 ltac:(lia)). lia.
Qed.

Lemma cut_ms_idem d : cut_ms (cut_ms d) = cut_ms d.
Proof. unfold cut_ms. now rewrite Z.div_mul by lia. Qed.

Lemma cut_ms_mono a b : a <= b -> cut_ms a <= cut_ms b.
Proof.
  intros H. unfold cut_ms.
  apply Z.mul_le_mono_nonneg_r; [lia|]. apply Z.div_le_mono; lia.
Qed.

Lemma NoDup_keys_stored_doc r : NoDup (keys (stored_doc r)).
Proof.
  change (keys (stored_doc r)) with ("_id" :: FIELDS).
  repeat constructor; simpl; intuition discriminate.
Qed.

Lemma well_stored_stored_doc r :
  finite_body (payload r) = true -> well_stored (stored_doc r).
Proof.
  intros Hf. split; [apply NoDup_keys_stored_doc|].
  split; [apply has_id_stored_doc|].
  destruct r as [now fresh [pid pn ts hr bp rr tc ox nt]].
  unfold finite_body in Hf. cbn [payload temperature_c] in Hf.
  intros k x Hin Hk. simpl in Hin.
  repeat (destruct Hin as [E|Hin];
          [injection E as <- <-; try congruence; try reflexivity|]);
    try contradiction.
  - destruct pn; reflexivity.
  - destruct hr; reflexivity.
  - destruct bp as [[[sy|] [di|]]|]; reflexivity.
  - destruct rr; reflexivity.
  - destruct tc; [exact Hf | reflexivity].
  - destruct ox; reflexivity.
  - destruct nt; reflexivity.
Qed.

(** C3: when the body carries no timestamp (and the database can store
    the body), the stored document holds, under [timestamp], the clock
    reading of the call cut to whole milliseconds: not null, and less
    than a millisecond before the clock reading.  Listing the patient
    right afterwards shows that document with the stored instant in
    ISO form. *)
Theorem post_vitals_fills_timestamp now fresh v db :
  (forall doc, In doc db -> of_patient (patient_id v) doc -> well_stored doc) ->
  timestamp v = None ->
  storable v = true ->
  finite_body v = true ->
  exists doc,
    fst (post_vitals rt now fresh v db) = db ++ [doc] /\
    dict_get "timestamp" doc = Some (VDatetime (cut_ms now)) /\
    0 <= now - cut_ms now < 1000 /\
    exists docs d,
      route_get_vitals rt (patient_id v) (fst (post_vitals rt now fresh v db)) =
      {| status_code := 200; content := BJsonArray docs |} /\
      In d docs /\
      jsonable rt doc = Some d /\
      dict_get "_id" d = Some (VStr (str_ObjectId fresh)) /\
      dict_get "timestamp" d = Some (VStr (isoformat rt (cut_ms now))).
Proof.
  intros Hws Hts _ Hfin. rewrite post_vitals_eq. cbn [fst].
  set (r := {| clock := now; new_id := fresh; payload := v |}).
  assert (Hst : stored_timestamp r = cut_ms now).
  { unfold stored_timestamp, r. cbn [payload clock]. now rewrite Hts. }
  exists (stored_doc r). split; [reflexivity|]. split.
  { unfold stored_doc, stored. rewrite Hst. reflexivity. }
  split; [apply cut_ms_bounds|].
  assert (Hp : of_patient (patient_id v) (stored_doc r)) by reflexivity.
  assert (Hws' : forall doc, In doc (db ++ [stored_doc r]) ->
                             of_patient (patient_id v) doc -> well_stored doc).
  { intros doc Hin Hd. apply in_app_or in Hin. destruct Hin as [Hin|[<-|[]]]; auto.
    now apply well_stored_stored_doc. }
  destruct (collect_well_stored _ (cursor_well_stored (patient_id v) _ Hws'))
    as [out [Hc [Hf Hr]]].
  assert (Hin : In (stored_doc r)
                  (sort_desc "timestamp" (find (patient_id v) (db ++ [stored_doc r])))).
  { apply in_cursor. split; [|exact Hp]. apply in_or_app. right. now left. }
  destruct (Forall2_In_l _ _ _ _ Hf Hin) as [d [Hd Hj]].
  exists out, d. split.
  { apply get_vitals_collected; auto. intros ->. inversion Hd. }
  split; auto. split; auto.
  rewrite jsonable_stored_doc in Hj. injection Hj as <-.
  unfold listed_doc. rewrite Hst. split; reflexivity.
Qed.

(** ** Order of the stored records *)

Lemma py_get_timestamp_stored_doc r :
  py_get "timestamp" (stored_doc r) = VDatetime (stored_timestamp r).
Proof. reflexivity. Qed.

Lemma desc_stored_doc a b :
  desc "timestamp" (stored_doc a) (stored_doc b) <-> not_older a b.
Proof.
  unfold desc, not_older. rewrite !py_get_timestamp_stored_doc. simpl.
  apply Z.leb_le.
Qed.

Lemma HdRel_stored_doc a l :
  HdRel (desc "timestamp") (stored_doc a) (map stored_doc l) ->
  HdRel not_older a l.
Proof.
  destruct l as [|b l]; simpl; intros H; constructor.
  inversion H; subst. now apply desc_stored_doc.
Qed.

Lemma Sorted_stored_doc l :
  Sorted (desc "timestamp") (map stored_doc l) -> Sorted not_older l.
Proof.
  induction l as [|a l IH]; simpl; intros H; constructor;
    apply Sorted_inv in H; destruct H as [Hs Hh].
  - now apply IH.
  - now apply HdRel_stored_doc.
Qed.

Lemma not_older_trans : Transitive not_older.
Proof. unfold Transitive, not_older. intros. lia. Qed.

(** The cursor over a patient's records, on a collection built by
    create requests: the patient's requests in some order, no record
    before a newer one. *)
Lemma sorted_requests pid reqs :
  exists order,
    Permutation order (filter (is_for pid) reqs) /\
    StronglySorted not_older order /\
    sort_desc "timestamp" (find pid (serve_posts rt reqs [])) =
    map stored_doc order.
Proof.
  rewrite serve_posts_eq, app_nil_l, find_stored.
  set (mine := filter (is_for pid) reqs).
  destruct (Permutation_map_inv stored_doc mine
              (sort_desc_perm "timestamp" (map stored_doc mine)))
    as [order [Heq Hperm]].
  exists order. split; [now symmetry|]. split; [|assumption].
  apply Sorted_StronglySorted; [exact not_older_trans|].
  apply Sorted_stored_doc. rewrite <- Heq. apply sort_desc_sorted.
Qed.

Lemma StronglySorted_strict l :
  StronglySorted not_older l ->
  NoDup (map stored_timestamp l) ->
  StronglySorted newer l.
Proof.
  induction 1 as [|a l Hs IH Hall]; simpl; intros Hnd; constructor;
    inversion Hnd as [|x xs Hnotin Hnd']; subst.
  - now apply IH.
  - rewrite Forall_forall in *. intros b Hb.
    specialize (Hall b Hb). unfold newer, not_older in *.
    assert (stored_timestamp b <> stored_timestamp a).
    { intros E. apply Hnotin. rewrite <- E. now apply in_map. }
    lia.
Qed.

Lemma renders_listed_doc r :
  finite_body (payload r) = true -> renders (listed_doc rt r) = true.
Proof.
  destruct r as [now fresh [pid pn ts hr bp rr tc ox nt]].
  unfold finite_body. cbn [payload temperature_c]. intros Hf.
  destruct pn, hr, bp as [[[sy|] [di|]]|], rr, tc, ox, nt;
    cbn; rewrite ?Hf; reflexivity.
Qed.

Lemma renders_listed order (mine : list request) :
  Permutation order mine ->
  (forall r, In r mine -> finite_body (payload r) = true) ->
  forallb renders (map (listed_doc rt) order) = true.
Proof.
  intros Hperm Hfin. apply forallb_forall. intros d Hd.
  apply in_map_iff in Hd. destruct Hd as [r [<- Hr]].
  apply renders_listed_doc, Hfin. exact (Permutation_in _ Hperm Hr).
Qed.

(** C5: on a collection built by create requests, listing a patient
    whose records carry pairwise distinct stored timestamps (whole
    milliseconds) and finite floats answers 200 with exactly that
    patient's records, each shown once, every record before all older
    ones. *)
Theorem get_vitals_newest_first reqs pid :
  filter (is_for pid) reqs <> [] ->
  NoDup (map stored_timestamp (filter (is_for pid) reqs)) ->
  (forall r, In r (filter (is_for pid) reqs) -> finite_body (payload r) = true) ->
  exists order,
    Permutation order (filter (is_for pid) reqs) /\
    StronglySorted newer order /\
    route_get_vitals rt pid (serve_posts rt reqs []) =
    {| status_code := 200; content := BJsonArray (map (listed_doc rt) order) |}.
Proof.
  intros Hne Hnd Hfin.
  destruct (sorted_requests pid reqs) as [order [Hperm [Hsorted Hsort]]].
  exists order. split; [assumption|]. split.
  - apply StronglySorted_strict; [assumption|].
    apply (Permutation_NoDup (l := map stored_timestamp (filter (is_for pid) reqs)));
      [|assumption].
    apply Permutation_map. now symmetry.
  - apply get_vitals_collected.
    + rewrite Hsort. apply collect_map. apply jsonable_stored_doc.
    + intros E. apply map_eq_nil in E. subst order.
      apply Permutation_nil in Hperm. contradiction.
    + exact (renders_listed order _ Hperm Hfin).
Qed.

(** ** Reports *)

Lemma normalize_stored_doc now r :
  normalize rt now (stored_doc r) = Vitals_dict (stored r).
Proof. reflexivity. Qed.


(** ** The rendered page *)

Lemma build_vitals_pdf_rows now pid v fs :
  option_map rows
    (read_file (snd (build_vitals_pdf rt now pid v fs))
               (fst (build_vitals_pdf rt now pid v fs))) =
  Some [ ("Heart Rate (bpm):",
          py_str rt (py_or (opt VInt (heart_rate v)) (VStr "N/A")));
         ("Blood Pressure:", bp_str rt v);
         ("Respiratory Rate (breaths/min):",
          py_str rt (py_or (opt VInt (respiratory_rate v)) (VStr "N/A")));
         ("Temperature (Â°C):",
          py_str rt (py_or (opt VFloat (temperature_c v)) (VStr "N/A")));
         ("Oxygen Saturation (%):",
          py_str rt (py_or (opt VInt (oxygen_saturation v)) (VStr "N/A")));
         ("Notes:", py_str rt (py_or (opt VStr (notes v)) (VStr "-"))) ].
Proof.
  unfold build_vitals_pdf, write_file, draw_row. simpl.
  rewrite String.eqb_refl. reflexivity.
Qed.

Lemma page_rows now pid v :
  option_map rows (page rt now pid v) =
  option_map rows
    (read_file (snd (build_vitals_pdf rt now pid v []))
               (fst (build_vitals_pdf rt now pid v []))).
Proof.
  unfold page. destruct (build_vitals_pdf rt now pid v []). reflexivity.
Qed.


Lemma py_str_opt_int o : py_str rt (opt VInt o) = shown o.
Proof. destruct o; reflexivity. Qed.

Lemma bp_str_some v bp :
  blood_pressure v = Some bp ->
  bp_str rt v = (shown (systolic bp) ++ "/" ++ shown (diastolic bp) ++ " mmHg")%string.
Proof.
  intros H. unfold bp_str. rewrite H. now rewrite !py_str_opt_int.
Qed.

Lemma bp_str_none v : blood_pressure v = None -> bp_str rt v = "N/A".
Proof. intros H. unfold bp_str. now rewrite H. Qed.

Lemma length_append (a b : string) :
  String.length (a ++ b)%string = (String.length a + String.length b)%nat.
Proof. induction a as [|c a IH]; simpl; auto. Qed.

Lemma bp_str_NA v : bp_str rt v = "N/A" <-> blood_pressure v = None.
Proof.
  split; [|apply bp_str_none].
  destruct (blood_pressure v) as [bp|] eqn:E; [|reflexivity].
  rewrite (bp_str_some _ _ E). intros H.
  apply (f_equal String.length) in H.
  rewrite !length_append in H. simpl in H. lia.
Qed.

Lemma heart_rate_row now pid v :
  option_map (row "Heart Rate (bpm):") (option_map rows (page rt now pid v)) =
  Some (Some (py_str rt (py_or (opt VInt (heart_rate v)) (VStr "N/A")))).
Proof. rewrite page_rows, build_vitals_pdf_rows. reflexivity. Qed.

(** X1: a heart rate that is present and not zero is drawn as its
    decimal text in the heart-rate row. *)
Lemma heart_rate_row_nonzero now pid v h :
  heart_rate v = Some h -> h <> 0 ->
  option_map (row "Heart Rate (bpm):") (option_map rows (page rt now pid v)) =
  Some (Some (str_int h)).
Proof.
  intros Hh Hz. rewrite heart_rate_row, Hh. unfold py_or. simpl.
  destruct (Z.eqb_spec h 0); [contradiction | reflexivity].
Qed.

(** C2: a heart rate of 0 is present in the record, yet its row reads
    "N/A": [or] takes the zero for a missing value.  The renderer
    draws the value only when it is present and not zero. *)
Theorem heart_rate_zero_reads_NA now pid :
  option_map (row "Heart Rate (bpm):")
    (option_map rows (page rt now pid (with_heart_rate pid 0))) =
  Some (Some "N/A").
Proof. rewrite heart_rate_row. reflexivity. Qed.

(** C9: when the record carries a blood-pressure object, its row reads
    "systolic/diastolic mmHg" with the text "None" for a part that is
    missing; the row reads "N/A" exactly when the object itself is
    missing. *)
Theorem bp_row_partial now pid v :
  exists rs,
    option_map rows (page rt now pid v) = Some rs /\
    (forall bp, blood_pressure v = Some bp ->
       row "Blood Pressure:" rs =
       Some (shown (systolic bp) ++ "/" ++ shown (diastolic bp) ++ " mmHg")%string) /\
    (row "Blood Pressure:" rs = Some "N/A" <-> blood_pressure v = None).
Proof.
  eexists. split.
  - rewrite page_rows. apply build_vitals_pdf_rows.
  - cbn [row String.eqb Ascii.eqb Bool.eqb]. split.
    + intros bp Hbp. now rewrite (bp_str_some _ _ Hbp).
    + rewrite <- bp_str_NA. split; congruence.
Qed.

(** ** From the stored document back to the record *)

Lemma raw_doc_eq id v ts : raw_doc id v ts = ("_id", id) :: Vitals_dict_with ts v.
Proof. reflexivity. Qed.

Lemma normalize_native now id v t :
  normalize rt now (raw_doc id v (VDatetime t)) =
  Vitals_dict (set_timestamp v (Some t)).
Proof. reflexivity. Qed.

Lemma normalize_string now id v s :
  normalize rt now (raw_doc id v (VStr s)) =
  Vitals_dict (set_timestamp v (Some match fromisoformat rt s with
                                      | Some t => t
                                      | None => now
                                      end)).
Proof.
  rewrite raw_doc_eq. unfold normalize.
  cbn [dict_pop String.eqb Ascii.eqb Bool.eqb]. cbv zeta.
  change (py_get "timestamp" (Vitals_dict_with (VStr s) v)) with (VStr s).
  cbv iota beta.
  destruct (fromisoformat rt s); reflexivity.
Qed.

(** Whatever else the document holds, the timestamp handed to the
    model is a time value as soon as the stored one is a time value or
    a string. *)
Lemma normalize_timestamp_field now doc :
  match py_get "timestamp" doc with
  | VDatetime t =>
      dict_get "timestamp" (normalize rt now doc) = Some (VDatetime t)
  | VStr s =>
      dict_get "timestamp" (normalize rt now doc) =
      Some (VDatetime match fromisoformat rt s with
                      | Some t => t
                      | None => now
                      end)
  | _ => True
  end.
Proof.
  assert (Hpop : py_get "timestamp" (dict_pop "_id" doc) = py_get "timestamp" doc).
  { unfold py_get. rewrite dict_get_pop_other; [reflexivity | discriminate]. }
  unfold normalize. cbv zeta. rewrite Hpop.
  destruct (py_get "timestamp" doc) eqn:E; auto.
  - destruct (fromisoformat rt s); apply dict_get_set_same.
  - unfold py_get in E. rewrite dict_get_pop_other by discriminate.
    destruct (dict_get "timestamp" doc); congruence.
Qed.

Lemma get_vitals_pdf_found now pid db fs doc v :
  find_one pid "timestamp" db = Some doc ->
  doc <> [] ->
  Vitals_validate rt (normalize rt now doc) = Some v ->
  get_vitals_pdf rt now pid db fs = report rt now pid v fs.
Proof.
  intros Hf Hne Hv. unfold get_vitals_pdf. rewrite Hf.
  destruct doc as [|kv doc]; [congruence|].
  rewrite Hv. reflexivity.
Qed.

(** C8: when the latest document of a patient is a record of the
    service whose timestamp is stored as a native time value, as an
    ISO string that parses, or as a string that does not parse, the
    report is rendered, from that record with the stored instant, the
    parsed instant, or the clock reading of the call; in no case does
    the timestamp make the request fail. *)
Theorem get_vitals_pdf_tolerates_timestamp now pid db fs id v :
  (forall t,
     find_one pid "timestamp" db = Some (raw_doc id v (VDatetime t)) ->
     get_vitals_pdf rt now pid db fs =
     report rt now pid (set_timestamp v (Some t)) fs) /\
  (forall s t,
     find_one pid "timestamp" db = Some (raw_doc id v (VStr s)) ->
     fromisoformat rt s = Some t ->
     get_vitals_pdf rt now pid db fs =
     report rt now pid (set_timestamp v (Some t)) fs) /\
  (forall s,
     find_one pid "timestamp" db = Some (raw_doc id v (VStr s)) ->
     fromisoformat rt s = None ->
     get_vitals_pdf rt now pid db fs =
     report rt now pid (set_timestamp v (Some now)) fs).
Proof.
  split; [|split].
  - intros t Hf. apply (get_vitals_pdf_found _ _ _ _ _ _ Hf).
    + rewrite raw_doc_eq. discriminate.
    + rewrite normalize_native. apply Vitals_validate_dict.
  - intros s t Hf Hp. apply (get_vitals_pdf_found _ _ _ _ _ _ Hf).
    + rewrite raw_doc_eq. discriminate.
    + rewrite normalize_string, Hp. apply Vitals_validate_dict.
  - intros s Hf Hp. apply (get_vitals_pdf_found _ _ _ _ _ _ Hf).
    + rewrite raw_doc_eq. discriminate.
    + rewrite normalize_string, Hp. apply Vitals_validate_dict.
Qed.

(** ** Round trip *)



(** ** The persisted document *)

Lemma keys_stored_doc r : keys (stored_doc r) = "_id" :: FIELDS.
Proof. reflexivity. Qed.

(** C10: the document [post_vitals] persists for a body the database
    can store holds the [_id] and the nine fields of the record; every
    optional field other than [timestamp] that the body left out is
    stored as null, and [timestamp] is never null: it holds the body's
    instant or, when the body has none, the clock reading of the call,
    cut to whole milliseconds. *)
Theorem post_vitals_persists_every_field now fresh v db :
  storable v = true ->
  exists doc,
    fst (post_vitals rt now fresh v db) = db ++ [doc] /\
    keys doc = "_id" :: FIELDS /\
    (forall k, In k FIELDS -> dict_get k doc <> None) /\
    (forall k, In k (absent_inputs v) -> k <> "timestamp" ->
               dict_get k doc = Some VNone) /\
    dict_get "timestamp" doc =
    Some (VDatetime (cut_ms match timestamp v with Some t => t | None => now end)).
Proof.
  intros _. rewrite post_vitals_eq. cbn [fst].
  eexists. split; [reflexivity|]. split; [apply keys_stored_doc|].
  destruct v as [pid pn ts hr bp rr tc ox nt]. split; [|split].
  - intros k Hk. simpl in Hk.
    repeat (destruct Hk as [<-|Hk]; [simpl; congruence|]). contradiction.
  - intros k Hk Hts. unfold absent_inputs in Hk.
    cbn [patient_name timestamp heart_rate blood_pressure respiratory_rate
         temperature_c oxygen_saturation notes] in Hk.
    repeat (apply in_app_or in Hk; destruct Hk as [Hk|Hk]);
      match type of Hk with
      | In _ (absent _ ?o) =>
          destruct o; simpl in Hk; [contradiction|];
          destruct Hk as [<-|[]]; try congruence; reflexivity
      end.
  - reflexivity.
Qed.

End Properties.

(** ** The properties on concrete requests *)

(** The scenario of the specification: one reading with heart rate 72
    is created, listed, and reported. *)
Example scenario_list :
  route_get_vitals sample_rt "p1" (serve_posts sample_rt [first_request] []) =
  {| status_code := 200;
     content := BJsonArray
       [ [ ("_id", VStr "000000000000000000000001");
           ("patient_id", VStr "p1");
           ("patient_name", VNone);
           ("timestamp", VStr "T1000");
           ("heart_rate", VInt 72);
           ("blood_pressure", VNone);
           ("respiratory_rate", VNone);
           ("temperature_c", VNone);
           ("oxygen_saturation", VNone);
           ("notes", VNone) ] ] |}.
Proof. reflexivity. Qed.

Example scenario_report :
  let '(fs, resp) :=
    route_get_vitals_pdf sample_rt 5000 "p1"
      (serve_posts sample_rt [first_request] []) [] in
  content resp = BFile "reports/p1_1000.pdf" "application/pdf" "p1_1000.pdf" /\
  option_map (row "Heart Rate (bpm):") (served_rows fs resp) = Some (Some "72").
Proof. split; reflexivity. Qed.

Example scenario_unknown_patient :
  status_code (route_get_vitals sample_rt "unknown_patient" sample_db) = 404.
Proof. reflexivity. Qed.

Example sample_db_newest_first :
  route_get_vitals sample_rt "p1" sample_db =
  {| status_code := 200;
     content := BJsonArray [listed_doc sample_rt second_request;
                            listed_doc sample_rt first_request] |}.
Proof. reflexivity. Qed.

Example bp_row_none_none :
  option_map (row "Blood Pressure:")
    (option_map rows
       (page sample_rt 0 "p1"
          (with_blood_pressure "p1" None {| systolic := None; diastolic := None |}))) =
  Some (Some "None/None mmHg").
Proof. reflexivity. Qed.

Lemma heart_rate_row_nonzero_witness :
  option_map (row "Heart Rate (bpm):")
    (option_map rows (page sample_rt 0 "p1" (with_heart_rate "p1" 72))) =
  Some (Some "72").
Proof.
  apply (heart_rate_row_nonzero sample_rt 0 "p1" (with_heart_rate "p1" 72) 72).
  - reflexivity.
  - discriminate.
Defined.

Example notes_empty_reads_dash :
  option_map (row "Notes:")
    (option_map rows
       (page sample_rt 0 "p1"
          {| patient_id := "p1"; patient_name := None; timestamp := None;
             heart_rate := None; blood_pressure := None;
             respiratory_rate := None; temperature_c := Some 0%float;
             oxygen_saturation := None; notes := Some "" |})) =
  Some (Some "-").
Proof. reflexivity. Qed.

Lemma has_id_sample_db : Forall has_id sample_db.
Proof.
  unfold sample_db. rewrite serve_posts_eq. simpl.
  repeat constructor; apply has_id_stored_doc.
Defined.


Example bp_round_trip_120_80 :
  let '(fs, resp) :=
    route_get_vitals_pdf sample_rt 5000 "p1"
      (fst (post_vitals sample_rt 2000 2%N (payload second_request) [])) [] in
  option_map (row "Blood Pressure:") (served_rows fs resp) =
  Some (Some "120/80 mmHg").
Proof. reflexivity. Qed.

Example bp_round_trip_absent :
  let '(fs, resp) :=
    route_get_vitals_pdf sample_rt 5000 "p1"
      (fst (post_vitals sample_rt 1000 1%N (bare "p1") [])) [] in
  option_map (row "Blood Pressure:") (served_rows fs resp) = Some (Some "N/A").
Proof. reflexivity. Qed.

(** C8 on a collection holding one record whose timestamp is a string
    that does not parse: the report is made with the clock reading. *)
Lemma get_vitals_pdf_tolerates_timestamp_witness :
  get_vitals_pdf sample_rt 5000 "p9"
    [raw_doc (VObjectId 9%N) (bare "p9") (VStr "yesterday")] [] =
  report sample_rt 5000 "p9" (set_timestamp (bare "p9") (Some 5000)) [].
Proof.
  apply (proj2 (proj2 (get_vitals_pdf_tolerates_timestamp sample_rt 5000 "p9"
           [raw_doc (VObjectId 9%N) (bare "p9") (VStr "yesterday")] []
           (VObjectId 9%N) (bare "p9"))) "yesterday"); reflexivity.
Defined.

Example native_time_is_kept :
  get_vitals_pdf sample_rt 5000 "p9"
    [raw_doc (VObjectId 9%N) (bare "p9") (VDatetime 42)] [] =
  report sample_rt 5000 "p9" (set_timestamp (bare "p9") (Some 42)) [].
Proof. reflexivity. Qed.

Example iso_string_is_parsed :
  get_vitals_pdf sample_rt 5000 "p9"
    [raw_doc (VObjectId 9%N) (bare "p9") (VStr "1970-01-01T00:00:00")] [] =
  report sample_rt 5000 "p9" (set_timestamp (bare "p9") (Some 0)) [].
Proof. reflexivity. Qed.

(** C10 as worded fails on the body [{"patient_id": "p1"}]: its
    timestamp is absent, and the stored document holds the clock
    reading under [timestamp], not null. *)
Lemma absent_timestamp_is_not_null :
  exists doc,
    fst (post_vitals sample_rt 1000 1%N (bare "p1") []) = [doc] /\
    In "timestamp" (absent_inputs (bare "p1")) /\
    dict_get "timestamp" doc = Some (VDatetime 1000) /\
    ~ nulls_for_absent (bare "p1") doc.
Proof.
  eexists. split; [reflexivity|].
  assert (Hin : In "timestamp" (absent_inputs (bare "p1"))) by (simpl; auto).
  split; [exact Hin|]. split; [reflexivity|].
  intros [_ H]. specialize (H "timestamp" Hin). discriminate H.
Qed.

(** * Further properties of the renderer, the handlers and startup *)

Section Coverage.

Context (rt : Runtime).

(** ** Paths *)

Lemma has_slash_append a b :
  has_slash (a ++ b)%string = has_slash a || has_slash b.
Proof.
  induction a as [|c a IH]; simpl; auto.
  rewrite IH. now rewrite orb_assoc.
Qed.

Lemma basename_no_slash f : has_slash f = false -> basename f = f.
Proof.
  destruct f as [|c f]; simpl; auto.
  intros H. now rewrite H.
Qed.

Lemma path_join_reports f :
  has_slash f = false -> path_join REPORTS_DIR f = ("reports/" ++ f)%string.
Proof.
  destruct f as [|c f]; [reflexivity|].
  simpl. intros H. apply orb_false_elim in H. destruct H as [Hc _].
  destruct c as [[] [] [] [] [] [] [] []]; try reflexivity; discriminate Hc.
Qed.

Lemma basename_reports f :
  has_slash f = false -> basename ("reports/" ++ f)%string = f.
Proof. intros H. simpl. now apply basename_no_slash. Qed.

Lemma build_vitals_pdf_path now pid v fs :
  snd (build_vitals_pdf rt now pid v fs) =
  path_join REPORTS_DIR (pid ++ "_" ++ stamp rt now v ++ ".pdf")%string.
Proof.
  unfold build_vitals_pdf, stamp. destruct (timestamp v); reflexivity.
Qed.



(** ** The page *)

Lemma page_canvas now pid v :
  exists c, page rt now pid v = Some c /\
    firstn 3 (texts c) =
    [ ("Vitals Report - " ++
       py_str rt (py_or (opt VStr (patient_name v)) (VStr pid)))%string;
      ("Patient ID: " ++ pid)%string;
      ("Timestamp: " ++
       match timestamp v with
       | Some t => isoformat rt t
       | None => "N/A"
       end)%string ] /\
    map fst (rows c) =
    [ "Heart Rate (bpm):"; "Blood Pressure:";
      "Respiratory Rate (breaths/min):"; "Temperature (Â°C):";
      "Oxygen Saturation (%):"; "Notes:" ] /\
    pages c = 1%nat /\
    List.length (texts c) = 15%nat.
Proof.
  unfold page, build_vitals_pdf, write_file, draw_row. simpl.
  rewrite String.eqb_refl. eexists. split; [reflexivity|].
  repeat split.
Qed.

Lemma title_name_or pid v :
  py_str rt (py_or (opt VStr (patient_name v)) (VStr pid)) = title_name pid v.
Proof.
  unfold title_name, py_or. destruct (patient_name v) as [n|]; simpl; auto.
  destruct (String.eqb n ""); reflexivity.
Qed.

(** X4: whatever the record, the page has the same layout: three header
    lines, then the six rows heart rate, blood pressure, respiratory
    rate, temperature, oxygen saturation and notes in that order, on
    one page, with nothing else drawn. *)
Theorem page_layout now pid v :
  exists c,
    page rt now pid v = Some c /\
    map fst (rows c) =
    [ "Heart Rate (bpm):"; "Blood Pressure:";
      "Respiratory Rate (breaths/min):"; "Temperature (Â°C):";
      "Oxygen Saturation (%):"; "Notes:" ] /\
    pages c = 1%nat /\
    List.length (texts c) = (3 + 2 * List.length (rows c))%nat.
Proof.
  destruct (page_canvas now pid v) as [c [Hc [_ [Hrows [Hp Hlen]]]]].
  exists c. repeat split; auto.
  rewrite Hlen. rewrite <- (length_map fst), Hrows. reflexivity.
Qed.

(** X5: the title names the patient by name, and by id when the record
    has no name or an empty one; the second line shows the patient id
    and the third the timestamp in ISO form, or "N/A" when the record
    has none. *)
Theorem page_header now pid v :
  option_map (fun c => firstn 3 (texts c)) (page rt now pid v) =
  Some [ ("Vitals Report - " ++ title_name pid v)%string;
         ("Patient ID: " ++ pid)%string;
         ("Timestamp: " ++
          match timestamp v with
          | Some t => isoformat rt t
          | None => "N/A"
          end)%string ].
Proof.
  destruct (page_canvas now pid v) as [c [Hc [Hh _]]].
  rewrite Hc. cbn [option_map]. rewrite Hh. now rewrite title_name_or.
Qed.

Lemma py_or_int o :
  py_str rt (py_or (opt VInt o) (VStr "N/A")) =
  match o with
  | Some n => if n =? 0 then "N/A" else str_int n
  | None => "N/A"
  end.
Proof.
  destruct o as [n|]; [|reflexivity].
  unfold py_or. simpl. destruct (n =? 0); reflexivity.
Qed.

(** X6: the respiratory-rate and oxygen-saturation rows read the
    decimal text of a value that is present and not zero, the
    temperature row the text of a float that is present and not zero,
    the notes row a string that is present and not empty; each row
    reads "N/A" (the notes row "-") when its field is absent, and also
    when the value is zero or the empty string. *)
Theorem vital_rows now pid v :
  exists rs,
    option_map rows (page rt now pid v) = Some rs /\
    row "Respiratory Rate (breaths/min):" rs =
      Some match respiratory_rate v with
           | Some n => if n =? 0 then "N/A" else str_int n
           | None => "N/A"
           end /\
    row "Oxygen Saturation (%):" rs =
      Some match oxygen_saturation v with
           | Some n => if n =? 0 then "N/A" else str_int n
           | None => "N/A"
           end /\
    row "Temperature (Â°C):" rs =
      Some match temperature_c v with
           | Some f => if PrimFloat.eqb f 0%float then "N/A" else str_float rt f
           | None => "N/A"
           end /\
    row "Notes:" rs =
      Some match notes v with
           | Some s => if String.eqb s "" then "-" else s
           | None => "-"
           end.
Proof.
  eexists. split.
  - rewrite page_rows. apply build_vitals_pdf_rows.
  - cbn [row String.eqb Ascii.eqb Bool.eqb]. rewrite !py_or_int.
    repeat split.
    + destruct (temperature_c v) as [f|]; [|reflexivity].
      unfold py_or. simpl. destruct (PrimFloat.eqb f 0); reflexivity.
    + destruct (notes v) as [n|]; [|reflexivity].
      unfold py_or. simpl. destruct (String.eqb n ""); reflexivity.
Qed.

(** ** The report as written *)

Lemma float_text_or o :
  py_str rt (py_or (opt VFloat o) (VStr "N/A")) = float_text rt o.
Proof.
  destruct o as [f|]; [|reflexivity].
  unfold py_or. simpl. destruct (PrimFloat.eqb f 0); reflexivity.
Qed.

Lemma notes_text_or o :
  py_str rt (py_or (opt VStr o) (VStr "-")) = notes_text o.
Proof.
  destruct o as [n|]; [|reflexivity].
  unfold py_or. simpl. destruct (String.eqb n ""); reflexivity.
Qed.

Lemma bp_text_str v : bp_str rt v = bp_text (blood_pressure v).
Proof.
  unfold bp_str, bp_text. destruct (blood_pressure v); [|reflexivity].
  now rewrite !py_str_opt_int.
Qed.

(** What the canvas handed to the filesystem reads. *)
Lemma build_vitals_pdf_sheet now pid v fs :
  exists c,
    build_vitals_pdf rt now pid v fs =
    (write_file (path_join REPORTS_DIR (report_name rt now pid v)) c fs,
     path_join REPORTS_DIR (report_name rt now pid v)) /\
    texts c = sheet rt pid v /\
    pages c = 1%nat.
Proof.
  unfold build_vitals_pdf, draw_row, report_name, stamp. cbn [fst].
  destruct (timestamp v) as [t|] eqn:Et;
    (eexists; split; [reflexivity|]; split; [|reflexivity]);
    unfold sheet; rewrite Et; cbn [texts app];
    rewrite title_name_or, !py_or_int, float_text_or, notes_text_or, bp_text_str;
    reflexivity.
Qed.

Lemma filesystem_takes_no_slash name :
  filesystem_takes name = true -> has_slash name = false.
Proof.
  unfold filesystem_takes. intros H.
  repeat (apply andb_prop in H; destruct H as [H ?]).
  now destruct (has_slash name).
Qed.

(** For a name the filesystem takes, the report is the file
    [reports/<name>] holding the sheet of the record, served under that
    name. *)
Lemma report_written now pid v fs :
  filesystem_takes (report_name rt now pid v) = true ->
  exists c,
    report rt now pid v fs =
    (write_file ("reports/" ++ report_name rt now pid v)%string c fs,
     Responded (FileResponse ("reports/" ++ report_name rt now pid v)%string
                  "application/pdf" (report_name rt now pid v))) /\
    texts c = sheet rt pid v /\
    pages c = 1%nat.
Proof.
  intros Hn. apply filesystem_takes_no_slash in Hn.
  destruct (build_vitals_pdf_sheet now pid v fs) as [c [Hb [Ht Hp]]].
  exists c. split; [|auto].
  unfold report. rewrite Hb, (path_join_reports _ Hn).
  now rewrite (basename_reports _ Hn).
Qed.

(** X2: when the filesystem takes the name [<patient_id>_<stamp>.pdf],
    the stamp being that of the record's timestamp or of the clock when
    the record has none, the renderer returns the path
    [reports/<patient_id>_<stamp>.pdf], the file at that path reads the
    sheet of the record on one page, and it is served as
    [application/pdf] under the name [<patient_id>_<stamp>.pdf]. *)
Theorem report_file_name now pid v fs :
  filesystem_takes (pid ++ "_" ++ stamp rt now v ++ ".pdf")%string = true ->
  snd (build_vitals_pdf rt now pid v fs) =
  ("reports/" ++ pid ++ "_" ++ stamp rt now v ++ ".pdf")%string /\
  (exists c,
     read_file ("reports/" ++ pid ++ "_" ++ stamp rt now v ++ ".pdf")%string
       (fst (build_vitals_pdf rt now pid v fs)) = Some c /\
     texts c = sheet rt pid v /\
     pages c = 1%nat) /\
  snd (report rt now pid v fs) =
  Responded (FileResponse
               ("reports/" ++ pid ++ "_" ++ stamp rt now v ++ ".pdf")%string
               "application/pdf"
               (pid ++ "_" ++ stamp rt now v ++ ".pdf")%string).
Proof.
  intros Hn. change (pid ++ "_" ++ stamp rt now v ++ ".pdf")%string
    with (report_name rt now pid v) in *.
  destruct (report_written now pid v fs Hn) as [c [Hr [Ht Hp]]].
  destruct (build_vitals_pdf_sheet now pid v fs) as [c' [Hb [Ht' Hp']]].
  rewrite Hr, Hb.
  rewrite (path_join_reports _ (filesystem_takes_no_slash _ Hn)).
  cbn [fst snd]. split; [reflexivity|]. split; [|reflexivity].
  exists c'. unfold write_file. cbn [read_file].
  now rewrite String.eqb_refl.
Qed.

(** ** Listing *)

Lemma keys_dict_set k x d :
  dict_get k d <> None -> keys (dict_set k x d) = keys d.
Proof.
  unfold keys. induction d as [|[k' v'] d IH]; simpl; [congruence|].
  destruct (String.eqb k' k); simpl; [reflexivity|].
  intros H. now rewrite IH.
Qed.

(** X7: the list operation changes a document in two places only: the
    [_id] becomes its string form, and a timestamp stored as a native
    time value becomes its ISO form.  The keys, their order, every
    other field, and a timestamp of any other kind are shown as
    stored. *)
Theorem jsonable_keeps_fields doc d :
  jsonable rt doc = Some d ->
  keys d = keys doc /\
  (exists id, dict_get "_id" doc = Some id /\
              dict_get "_id" d = Some (VStr (py_str rt id))) /\
  (forall k, k <> "_id" -> k <> "timestamp" -> dict_get k d = dict_get k doc) /\
  (forall t, dict_get "timestamp" doc = Some (VDatetime t) ->
             dict_get "timestamp" d = Some (VStr (isoformat rt t))) /\
  (forall x, dict_get "timestamp" doc = Some x ->
             (forall t, x <> VDatetime t) ->
             dict_get "timestamp" d = Some x).
Proof.
  unfold jsonable. destruct (dict_get "_id" doc) as [id|] eqn:Eid; [|discriminate].
  set (doc1 := dict_set "_id" (VStr (py_str rt id)) doc).
  assert (Hk1 : keys doc1 = keys doc).
  { apply keys_dict_set. congruence. }
  assert (Hts1 : dict_get "timestamp" doc1 = dict_get "timestamp" doc).
  { apply dict_get_set_other. discriminate. }
  assert (Hid1 : dict_get "_id" doc1 = Some (VStr (py_str rt id))).
  { apply dict_get_set_same. }
  assert (Ho1 : forall k, k <> "_id" -> dict_get k doc1 = dict_get k doc).
  { intros k Hk. now apply dict_get_set_other. }
  unfold py_get. rewrite Hts1.
  destruct (dict_get "timestamp" doc) as [x|] eqn:Ets.
  - destruct x; intros H; injection H as <-;
      try (repeat split; eauto;
           [ intros t Ht; congruence
           | intros y Hy _; congruence ]).
    (* a native time value *)
    split; [|split; [|split; [|split]]].
    + rewrite keys_dict_set; [exact Hk1 | congruence].
    + exists id. split; auto.
      rewrite dict_get_set_other by discriminate. exact Hid1.
    + intros k Hk Hk'. rewrite dict_get_set_other by congruence. now apply Ho1.
    + intros t Ht. injection Ht as <-. apply dict_get_set_same.
    + intros y Hy Hn. injection Hy as <-. now destruct (Hn d0).
  - intros H. injection H as <-.
    repeat split; eauto; [intros t Ht | intros y Hy _]; congruence.
Qed.

Lemma collect_Some l out :
  collect rt l = Some out ->
  Forall2 (fun doc d => jsonable rt doc = Some d) l out.
Proof.
  revert out. induction l as [|doc l IH]; simpl; intros out H.
  - injection H as <-. constructor.
  - destruct (jsonable rt doc) as [d|] eqn:Ej; [|discriminate].
    destruct (collect rt l) as [ds|]; [|discriminate].
    injection H as <-. constructor; auto.
Qed.

Lemma Forall2_In_r {A B : Type} (R : A -> B -> Prop) l1 l2 b :
  Forall2 R l1 l2 -> In b l2 -> exists a, In a l1 /\ R a b.
Proof.
  induction 1 as [|x y l1 l2 Hxy Hl IH]; simpl; [tauto|].
  intros [->|Hin].
  - exists x. auto.
  - destruct (IH Hin) as [a [Ha Hr]]. exists a. auto.
Qed.

Lemma route_get_vitals_200 pid db docs :
  route_get_vitals rt pid db = {| status_code := 200; content := BJsonArray docs |} ->
  collect rt (sort_desc "timestamp" (find pid db)) = Some docs.
Proof.
  unfold route_get_vitals, get_vitals.
  destruct (collect rt (sort_desc "timestamp" (find pid db))) as [[|d ds]|];
    unfold respond; try discriminate.
  destruct (forallb renders (d :: ds)); intros H; [|discriminate].
  now injection H as <-.
Qed.

Lemma jsonable_other_key doc d k :
  jsonable rt doc = Some d ->
  k <> "_id" -> k <> "timestamp" ->
  dict_get k d = dict_get k doc.
Proof.
  unfold jsonable. destruct (dict_get "_id" doc) as [id|]; [|discriminate].
  intros H Hk Hk'.
  destruct (py_get "timestamp" (dict_set "_id" (VStr (py_str rt id)) doc));
    injection H as <-;
    rewrite ?(dict_get_set_other k "timestamp") by assumption;
    now apply dict_get_set_other.
Qed.

(** X8: a listing shows documents of the patient asked for and nothing
    else: every entry of a 200 response is the JSON form of a stored
    document whose [patient_id] is the one in the path, and carries
    that [patient_id]. *)
Theorem get_vitals_only_that_patient pid db docs :
  route_get_vitals rt pid db =
  {| status_code := 200; content := BJsonArray docs |} ->
  Forall (fun d =>
            dict_get "patient_id" d = Some (VStr pid) /\
            exists doc, In doc db /\
                        dict_get "patient_id" doc = Some (VStr pid) /\
                        jsonable rt doc = Some d)
         docs.
Proof.
  intros H. apply route_get_vitals_200, collect_Some in H.
  apply Forall_forall. intros d Hd.
  destruct (Forall2_In_r _ _ _ _ H Hd) as [doc [Hdoc Hj]].
  apply (Permutation_in _ (sort_desc_perm "timestamp" (find pid db))) in Hdoc.
  apply filter_In in Hdoc. destruct Hdoc as [Hin Hm].
  assert (Hpid : dict_get "patient_id" doc = Some (VStr pid)).
  { unfold matches in Hm.
    destruct (dict_get "patient_id" doc) as [[]|]; try discriminate.
    apply String.eqb_eq in Hm. now subst. }
  split; [|eauto].
  rewrite (jsonable_other_key doc d "patient_id" Hj); [exact Hpid | | ];
    discriminate.
Qed.

(** ** Creating, then reading *)

Lemma find_after_post_other now fresh v db pid :
  pid <> patient_id v ->
  find pid (fst (post_vitals rt now fresh v db)) = find pid db.
Proof.
  intros Hp. rewrite post_vitals_eq. cbn [fst].
  rewrite find_app. cbn [find filter]. rewrite matches_stored_doc.
  unfold is_for. cbn [payload].
  destruct (String.eqb_spec (patient_id v) pid); [congruence|].
  apply app_nil_r.
Qed.

(** X9: creating a reading for one patient changes nothing for any
    other patient: the listing and the report of every other patient
    id are the same before and after. *)
Theorem post_vitals_leaves_other_patients now fresh v db pid now' fs :
  pid <> patient_id v ->
  route_get_vitals rt pid (fst (post_vitals rt now fresh v db)) =
  route_get_vitals rt pid db /\
  route_get_vitals_pdf rt now' pid (fst (post_vitals rt now fresh v db)) fs =
  route_get_vitals_pdf rt now' pid db fs.
Proof.
  intros Hp.
  unfold route_get_vitals, get_vitals, route_get_vitals_pdf, get_vitals_pdf,
    find_one.
  now rewrite (find_after_post_other now fresh v db pid Hp).
Qed.

(** X10: after a reading is created from a body the database can store,
    with finite floats, the listing of its patient answers 200; among
    the entries is the new one, with the generated id as a string, the
    stored timestamp (the body's or the clock's, cut to whole
    milliseconds) in ISO form and every other field as given in the
    body; and every earlier document of the patient still has its
    entry. *)
Theorem post_then_list now fresh v db :
  (forall doc, In doc db -> of_patient (patient_id v) doc -> well_stored doc) ->
  storable v = true ->
  finite_body v = true ->
  exists docs,
    route_get_vitals rt (patient_id v) (fst (post_vitals rt now fresh v db)) =
    {| status_code := 200; content := BJsonArray docs |} /\
    In (("_id", VStr (str_ObjectId fresh)) ::
        Vitals_dict_with
          (VStr (isoformat rt (cut_ms match timestamp v with
                                      | Some t => t
                                      | None => now
                                      end))) v)
       docs /\
    (forall doc, In doc db -> of_patient (patient_id v) doc ->
                 exists d, In d docs /\ jsonable rt doc = Some d).
Proof.
  intros Hws _ Hfin. rewrite post_vitals_eq. cbn [fst].
  set (r := {| clock := now; new_id := fresh; payload := v |}).
  assert (Hp : of_patient (patient_id v) (stored_doc r)) by reflexivity.
  assert (Hws' : forall doc, In doc (db ++ [stored_doc r]) ->
                             of_patient (patient_id v) doc -> well_stored doc).
  { intros doc Hin Hd. apply in_app_or in Hin. destruct Hin as [Hin|[<-|[]]]; auto.
    now apply well_stored_stored_doc. }
  destruct (collect_well_stored rt _ (cursor_well_stored (patient_id v) _ Hws'))
    as [out [Hc [Hf Hr]]].
  assert (Hall : forall doc, In doc (db ++ [stored_doc r]) ->
                             of_patient (patient_id v) doc ->
                             exists d, In d out /\ jsonable rt doc = Some d).
  { intros doc Hin Hd. apply (Forall2_In_l _ _ _ _ Hf). now apply in_cursor. }
  destruct (Hall (stored_doc r)) as [d [Hd Hj]]; auto.
  { apply in_or_app. right. now left. }
  rewrite jsonable_stored_doc in Hj. injection Hj as <-.
  exists out. split; [|split].
  - apply get_vitals_collected; auto. intros ->. inversion Hd.
  - destruct v as [pid pn ts hr bp rr tc ox nt]. exact Hd.
  - intros doc Hin Hd'. apply Hall; auto. apply in_or_app. now left.
Qed.

(** X11: on a collection built by create requests, the listing of a
    patient with at least one record, all with finite floats, shows
    exactly that patient's records and no record before one with a
    later stored timestamp, also when several records carry the same
    stored timestamp (whole milliseconds). *)
Theorem get_vitals_never_older_first reqs pid :
  filter (is_for pid) reqs <> [] ->
  (forall r, In r (filter (is_for pid) reqs) -> finite_body (payload r) = true) ->
  exists order,
    Permutation order (filter (is_for pid) reqs) /\
    StronglySorted not_older order /\
    route_get_vitals rt pid (serve_posts rt reqs []) =
    {| status_code := 200; content := BJsonArray (map (listed_doc rt) order) |}.
Proof.
  intros Hne Hfin.
  destruct (sorted_requests rt pid reqs) as [order [Hperm [Hsorted Hsort]]].
  exists order. split; [assumption|]. split; [assumption|].
  apply get_vitals_collected.
  - rewrite Hsort. apply collect_map. apply jsonable_stored_doc.
  - intros E. apply map_eq_nil in E. subst order.
    apply Permutation_nil in Hperm. contradiction.
  - exact (renders_listed rt order _ Hperm Hfin).
Qed.

(** ** Reports *)

Lemma filter_is_for_app pid reqs r :
  is_for pid r = true ->
  filter (is_for pid) (reqs ++ [r]) = filter (is_for pid) reqs ++ [r].
Proof. intros H. rewrite filter_app. simpl. now rewrite H. Qed.

Lemma in_filter_is_for pid reqs r :
  In r (filter (is_for pid) reqs) <-> In r reqs /\ patient_id (payload r) = pid.
Proof.
  rewrite filter_In. unfold is_for. now rewrite String.eqb_eq.
Qed.

(** The report of a patient on a collection built by create requests,
    when the cursor over the patient's records starts with [r]. *)
Lemma route_pdf_first pid reqs r rest now fs :
  sort_desc "timestamp" (find pid (serve_posts rt reqs [])) =
  map stored_doc (r :: rest) ->
  filesystem_takes (report_name rt now pid (stored r)) = true ->
  exists c,
    route_get_vitals_pdf rt now pid (serve_posts rt reqs []) fs =
    (write_file ("reports/" ++ report_name rt now pid (stored r))%string c fs,
     {| status_code := 200;
        content := BFile ("reports/" ++ report_name rt now pid (stored r))%string
                     "application/pdf"
                     (report_name rt now pid (stored r)) |}) /\
    texts c = sheet rt pid (stored r) /\
    pages c = 1%nat.
Proof.
  intros Hsort Hn.
  destruct (report_written now pid (stored r) fs Hn) as [c [Hr Hc]].
  exists c. split; [|exact Hc].
  unfold route_get_vitals_pdf.
  rewrite (get_vitals_pdf_found rt now pid _ fs (stored_doc r) (stored r)).
  - now rewrite Hr.
  - unfold find_one. now rewrite Hsort.
  - discriminate.
  - rewrite normalize_stored_doc. apply Vitals_validate_dict.
Qed.


(** X12: on a collection built by create requests, a reading whose
    stored timestamp (whole milliseconds) is later than that of every
    earlier reading of its patient is the one the next report of that
    patient shows: when the filesystem takes the report's name, the
    file [reports/<name>] is written with the sheet of that reading
    and served with status 200. *)
Theorem newest_post_is_reported reqs r now fs :
  (forall r', In r' reqs -> patient_id (payload r') = patient_id (payload r) ->
              stored_timestamp r' < stored_timestamp r) ->
  filesystem_takes
    (report_name rt now (patient_id (payload r)) (stored r)) = true ->
  exists c,
    route_get_vitals_pdf rt now (patient_id (payload r))
      (serve_posts rt (reqs ++ [r]) []) fs =
    (write_file ("reports/" ++
                 report_name rt now (patient_id (payload r)) (stored r))%string
       c fs,
     {| status_code := 200;
        content := BFile ("reports/" ++
                          report_name rt now (patient_id (payload r)) (stored r))%string
                     "application/pdf"
                     (report_name rt now (patient_id (payload r)) (stored r)) |}) /\
    texts c = sheet rt (patient_id (payload r)) (stored r) /\
    pages c = 1%nat.
Proof.
  intros Hnew Hname. set (pid := patient_id (payload r)) in *.
  assert (Hr : is_for pid r = true) by apply String.eqb_refl.
  destruct (sorted_requests rt pid (reqs ++ [r])) as [order [Hperm [Hsorted Hsort]]].
  rewrite (filter_is_for_app pid reqs r Hr) in Hperm.
  destruct order as [|r0 rest].
  { apply Permutation_nil in Hperm. destruct (filter (is_for pid) reqs); discriminate. }
  assert (Hr0 : In r0 (filter (is_for pid) reqs ++ [r]))
    by (apply (Permutation_in _ Hperm); now left).
  assert (Hrin : In r (r0 :: rest)).
  { apply (Permutation_in _ (Permutation_sym Hperm)).
    apply in_or_app. right. now left. }
  assert (Hle : stored_timestamp r <= stored_timestamp r0).
  { destruct Hrin as [->|Hrin]; [lia|].
    apply StronglySorted_inv in Hsorted. destruct Hsorted as [_ Hall].
    rewrite Forall_forall in Hall. exact (Hall r Hrin). }
  assert (E : r0 = r).
  { apply in_app_or in Hr0. destruct Hr0 as [Hold|[->|[]]]; [|reflexivity].
    apply in_filter_is_for in Hold. destruct Hold as [Hold Hp].
    specialize (Hnew r0 Hold Hp). lia. }
  subst r0. exact (route_pdf_first pid (reqs ++ [r]) r rest now fs Hsort Hname).
Qed.

(** X19: on a collection built by create requests, for a patient whose
    records carry pairwise distinct stored timestamps and finite
    floats, the report shows the record the listing shows first: the
    listing answers 200 starting with that record, and, when the
    filesystem takes the report's name, the file [reports/<name>] is
    written with the sheet of that same record. *)
Theorem report_is_first_listed reqs pid now fs :
  filter (is_for pid) reqs <> [] ->
  NoDup (map stored_timestamp (filter (is_for pid) reqs)) ->
  (forall r, In r (filter (is_for pid) reqs) ->
             finite_body (payload r) = true /\
             filesystem_takes (report_name rt now pid (stored r)) = true) ->
  exists r rest c,
    Permutation (r :: rest) (filter (is_for pid) reqs) /\
    Forall (fun r' => stored_timestamp r' < stored_timestamp r) rest /\
    route_get_vitals rt pid (serve_posts rt reqs []) =
    {| status_code := 200;
       content := BJsonArray (listed_doc rt r :: map (listed_doc rt) rest) |} /\
    route_get_vitals_pdf rt now pid (serve_posts rt reqs []) fs =
    (write_file ("reports/" ++ report_name rt now pid (stored r))%string c fs,
     {| status_code := 200;
        content := BFile ("reports/" ++ report_name rt now pid (stored r))%string
                     "application/pdf"
                     (report_name rt now pid (stored r)) |}) /\
    texts c = sheet rt pid (stored r).
Proof.
  intros Hne Hnd Hok.
  destruct (sorted_requests rt pid reqs) as [order [Hperm [Hsorted Hsort]]].
  destruct order as [|r rest].
  { apply Permutation_nil in Hperm. contradiction. }
  assert (Hr : In r (filter (is_for pid) reqs))
    by (apply (Permutation_in _ Hperm); now left).
  destruct (route_pdf_first pid reqs r rest now fs Hsort (proj2 (Hok r Hr)))
    as [c [Hroute [Hc _]]].
  exists r, rest, c. split; [exact Hperm|]. split; [|split; [|split]]; auto.
  - assert (Hstrict : StronglySorted newer (r :: rest)).
    { apply StronglySorted_strict; [assumption|].
      apply (Permutation_NoDup (l := map stored_timestamp (filter (is_for pid) reqs)));
        [|assumption].
      apply Permutation_map. now symmetry. }
    apply StronglySorted_inv in Hstrict. exact (proj2 Hstrict).
  - change (listed_doc rt r :: map (listed_doc rt) rest)
      with (map (listed_doc rt) (r :: rest)).
    apply get_vitals_collected; [|discriminate|].
    + rewrite Hsort. apply (collect_map rt stored_doc (listed_doc rt)).
      apply jsonable_stored_doc.
    + apply (renders_listed rt _ _ Hperm). intros r' Hr'. exact (proj1 (Hok r' Hr')).
Qed.

(** X13: a stored record whose timestamp is null is reported all the
    same: the page says "Timestamp: N/A", and the file is named by the
    clock reading of the request. *)
Theorem get_vitals_pdf_null_timestamp now pid db fs id v :
  find_one pid "timestamp" db = Some (raw_doc id v VNone) ->
  get_vitals_pdf rt now pid db fs =
  report rt now pid (set_timestamp v None) fs /\
  option_map (fun c => nth 2 (texts c) "")
    (page rt now pid (set_timestamp v None)) = Some "Timestamp: N/A" /\
  snd (build_vitals_pdf rt now pid (set_timestamp v None) fs) =
  path_join REPORTS_DIR
    (pid ++ "_" ++ strftime rt now "%Y%m%d%H%M%S" ++ ".pdf")%string.
Proof.
  intros Hf. split; [|split].
  - apply (get_vitals_pdf_found rt _ _ _ _ _ _ Hf).
    + rewrite raw_doc_eq. discriminate.
    + change (normalize rt now (raw_doc id v VNone))
        with (Vitals_dict (set_timestamp v None)).
      apply Vitals_validate_dict.
  - destruct (page_canvas now pid (set_timestamp v None)) as [c [Hc [Hh _]]].
    rewrite Hc. cbn [option_map].
    destruct (texts c) as [|a [|b [|t l]]]; try discriminate Hh.
    cbn [firstn nth] in *. now injection Hh as _ _ ->.
  - reflexivity.
Qed.

(** ** The record model *)

(** X14: building the model looks at the nine fields only: two dicts
    that agree on them give the same outcome, so keys that name no
    field are ignored. *)
Theorem Vitals_validate_fields_only d1 d2 :
  (forall k, In k FIELDS -> dict_get k d1 = dict_get k d2) ->
  Vitals_validate rt d1 = Vitals_validate rt d2.
Proof.
  intros H. unfold Vitals_validate.
  rewrite (H "patient_id"), (H "patient_name"), (H "timestamp"),
    (H "heart_rate"), (H "blood_pressure"), (H "respiratory_rate"),
    (H "temperature_c"), (H "oxygen_saturation"), (H "notes");
    try reflexivity; simpl; tauto.
Qed.

(** X15: [patient_id] is the only field a record needs: a dict without
    it, or with null under it, is rejected whatever else it holds,
    and a dict holding only a [patient_id] string gives the record
    with every other field unset. *)
Theorem patient_id_required doc :
  (dict_get "patient_id" doc = None -> Vitals_validate rt doc = None) /\
  (dict_get "patient_id" doc = Some VNone -> Vitals_validate rt doc = None) /\
  (forall pid, Vitals_validate rt [("patient_id", VStr pid)] = Some (bare pid)).
Proof.
  unfold Vitals_validate. repeat split.
  - intros H. now rewrite H.
  - intros H. now rewrite H.
Qed.

End Coverage.

(** ** Startup *)


(** X17: once started, the service uses the database the URI names
    and [vitals_db] when the URI names none; the client is the one made
    for [MONGO_URI]; and the calls made are the ping followed by the
    creation of the indexes [patient_id] and [timestamp] on the
    collection [vitals] of that database. *)
Theorem start_database getenv client ping default index app calls :
  start getenv client ping default index = Some (app, calls) ->
  exists name,
    name = match default with
           | Named n => n
           | ConfigurationError => "vitals_db"
           | NoDatabase => "vitals_db"
           end /\
    db app = Some name /\
    mongo_client app = getenv /\
    calls = [ Ping;
              CreateIndex name "vitals" "patient_id";
              CreateIndex name "vitals" "timestamp" ].
Proof.
  unfold start, MONGO_URI.
  destruct getenv as [uri|]; [|discriminate].
  destruct (truthy (VStr uri)); [|discriminate].
  destruct client as [e|]; [discriminate|].
  destruct ping as [e|]; simpl; [discriminate|].
  destruct index as [e|]; [discriminate|].
  intros H. injection H as <- <-.
  eexists. split; [reflexivity|].
  destruct default; repeat split.
Qed.

(** X18: [startup_db_client] pings before anything else and creates no
    index unless the ping went through; when the ping raises, it
    raises a [RuntimeError] and leaves the global [db] as it was, with
    the client already assigned. *)
Theorem startup_pings_first uri ping default app :
  hd_error (snd (fst (startup_db_client uri ping default app))) = Some Ping /\
  ((exists d c k,
      In (CreateIndex d c k) (snd (fst (startup_db_client uri ping default app)))) ->
   ping = None) /\
  (ping <> None ->
   snd (startup_db_client uri ping default app) <> None /\
   db (fst (fst (startup_db_client uri ping default app))) = db app /\
   mongo_client (fst (fst (startup_db_client uri ping default app))) = Some uri).
Proof.
  unfold startup_db_client. destruct ping as [e|]; simpl.
  - split; [reflexivity|]. split.
    + intros [d [c [k [H|[]]]]]. discriminate H.
    + intros _. repeat split. discriminate.
  - split; [reflexivity|]. split; [reflexivity|]. congruence.
Qed.

(** ** The further properties on concrete requests *)

Example page_header_named :
  option_map (fun c => firstn 3 (texts c))
    (page sample_rt 0 "p1"
       {| patient_id := "p1"; patient_name := Some "Ada"; timestamp := Some 7;
          heart_rate := None; blood_pressure := None; respiratory_rate := None;
          temperature_c := None; oxygen_saturation := None; notes := None |}) =
  Some ["Vitals Report - Ada"; "Patient ID: p1"; "Timestamp: T7"].
Proof. reflexivity. Qed.

Lemma jsonable_keeps_fields_witness :
  keys (listed_doc sample_rt first_request) = keys (stored_doc first_request) /\
  (exists id, dict_get "_id" (stored_doc first_request) = Some id /\
              dict_get "_id" (listed_doc sample_rt first_request) =
              Some (VStr (py_str sample_rt id))) /\
  (forall k, k <> "_id" -> k <> "timestamp" ->
             dict_get k (listed_doc sample_rt first_request) =
             dict_get k (stored_doc first_request)) /\
  (forall t, dict_get "timestamp" (stored_doc first_request) = Some (VDatetime t) ->
             dict_get "timestamp" (listed_doc sample_rt first_request) =
             Some (VStr (isoformat sample_rt t))) /\
  (forall x, dict_get "timestamp" (stored_doc first_request) = Some x ->
             (forall t, x <> VDatetime t) ->
             dict_get "timestamp" (listed_doc sample_rt first_request) = Some x).
Proof.
  apply (jsonable_keeps_fields sample_rt (stored_doc first_request)
           (listed_doc sample_rt first_request)).
  reflexivity.
Defined.

(** A timestamp stored as a string is listed as stored. *)
Example jsonable_string_timestamp :
  jsonable sample_rt (raw_doc (VObjectId 9%N) (bare "p9") (VStr "yesterday")) =
  Some (("_id", VStr "000000000000000000000009") ::
        Vitals_dict_with (VStr "yesterday") (bare "p9")).
Proof. reflexivity. Qed.

Lemma get_vitals_only_that_patient_witness :
  Forall (fun d =>
            dict_get "patient_id" d = Some (VStr "p1") /\
            exists doc, In doc sample_db /\
                        dict_get "patient_id" doc = Some (VStr "p1") /\
                        jsonable sample_rt doc = Some d)
         [listed_doc sample_rt second_request; listed_doc sample_rt first_request].
Proof.
  apply (get_vitals_only_that_patient sample_rt "p1" sample_db).
  reflexivity.
Defined.

Lemma post_vitals_leaves_other_patients_witness :
  route_get_vitals sample_rt "p1"
    (fst (post_vitals sample_rt 3000 3%N (bare "p2") sample_db)) =
  route_get_vitals sample_rt "p1" sample_db /\
  route_get_vitals_pdf sample_rt 5000 "p1"
    (fst (post_vitals sample_rt 3000 3%N (bare "p2") sample_db)) [] =
  route_get_vitals_pdf sample_rt 5000 "p1" sample_db [].
Proof.
  apply (post_vitals_leaves_other_patients sample_rt 3000 3%N (bare "p2")
           sample_db "p1" 5000 []).
  discriminate.
Defined.

Lemma get_vitals_pdf_null_timestamp_witness :
  get_vitals_pdf sample_rt 5000 "p9"
    [raw_doc (VObjectId 9%N) (bare "p9") VNone] [] =
  report sample_rt 5000 "p9" (set_timestamp (bare "p9") None) [] /\
  option_map (fun c => nth 2 (texts c) "")
    (page sample_rt 5000 "p9" (set_timestamp (bare "p9") None)) =
  Some "Timestamp: N/A" /\
  snd (build_vitals_pdf sample_rt 5000 "p9" (set_timestamp (bare "p9") None) []) =
  path_join REPORTS_DIR
    ("p9" ++ "_" ++ strftime sample_rt 5000 "%Y%m%d%H%M%S" ++ ".pdf")%string.
Proof.
  apply (get_vitals_pdf_null_timestamp sample_rt 5000 "p9"
           [raw_doc (VObjectId 9%N) (bare "p9") VNone] []
           (VObjectId 9%N) (bare "p9")).
  reflexivity.
Defined.

Lemma Vitals_validate_fields_only_witness :
  Vitals_validate sample_rt
    (("_id", VObjectId 1%N) :: ("ward", VStr "B") ::
     Vitals_dict (with_heart_rate "p1" 72)) =
  Vitals_validate sample_rt (Vitals_dict (with_heart_rate "p1" 72)).
Proof.
  apply (Vitals_validate_fields_only sample_rt).
  intros k Hk. simpl in Hk.
  repeat (destruct Hk as [<-|Hk]; [reflexivity|]). contradiction.
Defined.


Lemma well_stored_sample_db doc :
  In doc sample_db -> of_patient "p1" doc -> well_stored doc.
Proof.
  unfold sample_db. rewrite serve_posts_eq. simpl.
  intros [<-|[<-|[]]] _; now apply well_stored_stored_doc.
Defined.

(** C3 on a clock reading with microseconds, on the empty collection. *)
Lemma post_vitals_fills_timestamp_witness :
  exists doc,
    fst (post_vitals sample_rt 1234567 1%N (with_heart_rate "p1" 72) []) = [] ++ [doc] /\
    dict_get "timestamp" doc = Some (VDatetime (cut_ms 1234567)) /\
    0 <= 1234567 - cut_ms 1234567 < 1000 /\
    exists docs d,
      route_get_vitals sample_rt (patient_id (with_heart_rate "p1" 72))
        (fst (post_vitals sample_rt 1234567 1%N (with_heart_rate "p1" 72) [])) =
      {| status_code := 200; content := BJsonArray docs |} /\
      In d docs /\
      jsonable sample_rt doc = Some d /\
      dict_get "_id" d = Some (VStr (str_ObjectId 1%N)) /\
      dict_get "timestamp" d = Some (VStr (isoformat sample_rt (cut_ms 1234567))).
Proof.
  apply (post_vitals_fills_timestamp sample_rt 1234567 1%N
           (with_heart_rate "p1" 72) []); try reflexivity.
  intros doc [].
Defined.

(** C3 as worded fails when the clock reads 1.234567 s: the stored
    timestamp is 1.234 s. *)
Lemma clock_microseconds_are_cut :
  timestamp (bare "p1") = None /\
  exists doc,
    fst (post_vitals sample_rt 1234567 1%N (bare "p1") []) = [doc] /\
    dict_get "timestamp" doc = Some (VDatetime 1234000) /\
    dict_get "timestamp" doc <> Some (VDatetime 1234567).
Proof.
  split; [reflexivity|]. eexists. split; [reflexivity|].
  split; [reflexivity | discriminate].
Qed.

(** C4 on the sample collection, for the patient it knows. *)
Lemma get_vitals_404_iff_no_record_witness :
  exists docs,
    docs <> [] /\
    route_get_vitals sample_rt "p1" sample_db =
    {| status_code := 200; content := BJsonArray docs |} /\
    Forall (fun d =>
              of_patient "p1" d /\
              exists doc, In doc sample_db /\ of_patient "p1" doc /\
                          jsonable sample_rt doc = Some d) docs /\
    (forall doc, In doc sample_db -> of_patient "p1" doc ->
                 exists d, In d docs /\ jsonable sample_rt doc = Some d).
Proof.
  apply (proj2 (get_vitals_404_iff_no_record sample_rt "p1" sample_db
                  well_stored_sample_db)).
  exists (stored_doc first_request). split; [now left | reflexivity].
Defined.

(** C4 as worded fails for a patient whose one record holds a NaN
    temperature: the record is stored, and the listing answers 500. *)
Lemma nan_temperature_breaks_listing :
  exists doc,
    fst (post_vitals sample_rt 1000 1%N (with_temperature "p1" nan) []) = [doc] /\
    of_patient "p1" doc /\
    route_get_vitals sample_rt "p1"
      (fst (post_vitals sample_rt 1000 1%N (with_temperature "p1" nan) [])) =
    {| status_code := 500; content := BText "Internal Server Error" |}.
Proof.
  eexists. split; [reflexivity|]. split; reflexivity.
Qed.

Lemma sample_requests_finite r :
  In r (filter (is_for "p1") [first_request; second_request]) ->
  finite_body (payload r) = true.
Proof. simpl. intros [<-|[<-|[]]]; reflexivity. Defined.


(** C5 on the two sample requests. *)
Lemma get_vitals_newest_first_witness :
  exists order,
    Permutation order (filter (is_for "p1") [first_request; second_request]) /\
    StronglySorted newer order /\
    route_get_vitals sample_rt "p1"
      (serve_posts sample_rt [first_request; second_request] []) =
    {| status_code := 200; content := BJsonArray (map (listed_doc sample_rt) order) |}.
Proof.
  apply (get_vitals_newest_first sample_rt [first_request; second_request] "p1").
  - vm_compute. discriminate.
  - simpl. repeat constructor; simpl; intuition discriminate.
  - exact sample_requests_finite.
Defined.


Example sample_report_reads :
  option_map texts
    (read_file "reports/p1_2000.pdf"
       (fst (route_get_vitals_pdf sample_rt 5000 "p1" sample_db []))) =
  Some [ "Vitals Report - p1"; "Patient ID: p1"; "Timestamp: T2000";
         "Heart Rate (bpm):"; "N/A"; "Blood Pressure:"; "120/80 mmHg";
         "Respiratory Rate (breaths/min):"; "N/A"; "Temperature (Â°C):"; "N/A";
         "Oxygen Saturation (%):"; "N/A"; "Notes:"; "-" ].
Proof. reflexivity. Qed.


(** C10 on the body [{"patient_id": "p1"}]. *)
Lemma post_vitals_persists_every_field_witness :
  exists doc,
    fst (post_vitals sample_rt 1234567 1%N (bare "p1") []) = [] ++ [doc] /\
    keys doc = "_id" :: FIELDS /\
    (forall k, In k FIELDS -> dict_get k doc <> None) /\
    (forall k, In k (absent_inputs (bare "p1")) -> k <> "timestamp" ->
               dict_get k doc = Some VNone) /\
    dict_get "timestamp" doc =
    Some (VDatetime (cut_ms match timestamp (bare "p1") with
                            | Some t => t
                            | None => 1234567
                            end)).
Proof.
  apply (post_vitals_persists_every_field sample_rt 1234567 1%N (bare "p1") []).
  reflexivity.
Defined.

Lemma report_file_name_witness :
  snd (build_vitals_pdf sample_rt 5000 "p1" (stored first_request) []) =
  ("reports/" ++ "p1" ++ "_" ++
   stamp sample_rt 5000 (stored first_request) ++ ".pdf")%string /\
  (exists c,
     read_file ("reports/" ++ "p1" ++ "_" ++
                stamp sample_rt 5000 (stored first_request) ++ ".pdf")%string
       (fst (build_vitals_pdf sample_rt 5000 "p1" (stored first_request) [])) =
     Some c /\
     texts c = sheet sample_rt "p1" (stored first_request) /\
     pages c = 1%nat) /\
  snd (report sample_rt 5000 "p1" (stored first_request) []) =
  Responded (FileResponse
               ("reports/" ++ "p1" ++ "_" ++
                stamp sample_rt 5000 (stored first_request) ++ ".pdf")%string
               "application/pdf"
               ("p1" ++ "_" ++
                stamp sample_rt 5000 (stored first_request) ++ ".pdf")%string).
Proof.
  apply (report_file_name sample_rt 5000 "p1" (stored first_request) []).
  reflexivity.
Defined.

Example report_file_name_p1 :
  snd (build_vitals_pdf sample_rt 5000 "p1" (stored first_request) []) =
  "reports/p1_1000.pdf".
Proof. reflexivity. Qed.

Lemma post_then_list_witness :
  exists docs,
    route_get_vitals sample_rt (patient_id (with_heart_rate "p1" 80))
      (fst (post_vitals sample_rt 3000999 3%N (with_heart_rate "p1" 80) sample_db)) =
    {| status_code := 200; content := BJsonArray docs |} /\
    In (("_id", VStr (str_ObjectId 3%N)) ::
        Vitals_dict_with
          (VStr (isoformat sample_rt
                   (cut_ms match timestamp (with_heart_rate "p1" 80) with
                           | Some t => t
                           | None => 3000999
                           end)))
          (with_heart_rate "p1" 80))
       docs /\
    (forall doc, In doc sample_db ->
                 of_patient (patient_id (with_heart_rate "p1" 80)) doc ->
                 exists d, In d docs /\ jsonable sample_rt doc = Some d).
Proof.
  apply (post_then_list sample_rt 3000999 3%N (with_heart_rate "p1" 80) sample_db);
    try reflexivity.
  exact well_stored_sample_db.
Defined.

Lemma get_vitals_never_older_first_witness :
  exists order,
    Permutation order (filter (is_for "p1") [first_request; first_request]) /\
    StronglySorted not_older order /\
    route_get_vitals sample_rt "p1"
      (serve_posts sample_rt [first_request; first_request] []) =
    {| status_code := 200; content := BJsonArray (map (listed_doc sample_rt) order) |}.
Proof.
  apply (get_vitals_never_older_first sample_rt [first_request; first_request] "p1").
  - vm_compute. discriminate.
  - simpl. intros r [<-|[<-|[]]]; reflexivity.
Defined.

Lemma newest_post_is_reported_witness :
  exists c,
    route_get_vitals_pdf sample_rt 5000 (patient_id (payload second_request))
      (serve_posts sample_rt ([first_request] ++ [second_request]) []) [] =
    (write_file ("reports/" ++
                 report_name sample_rt 5000 (patient_id (payload second_request))
                   (stored second_request))%string c [],
     {| status_code := 200;
        content := BFile ("reports/" ++
                          report_name sample_rt 5000
                            (patient_id (payload second_request))
                            (stored second_request))%string
                     "application/pdf"
                     (report_name sample_rt 5000
                        (patient_id (payload second_request))
                        (stored second_request)) |}) /\
    texts c = sheet sample_rt (patient_id (payload second_request))
                (stored second_request) /\
    pages c = 1%nat.
Proof.
  apply (newest_post_is_reported sample_rt [first_request] second_request 5000 []).
  - intros r' [<-|[]] _. reflexivity.
  - reflexivity.
Defined.

Lemma start_database_witness :
  exists name,
    name = "vitals_db" /\
    db {| mongo_client := Some "mongodb://localhost"; db := Some "vitals_db" |} =
    Some name /\
    mongo_client {| mongo_client := Some "mongodb://localhost";
                    db := Some "vitals_db" |} = Some "mongodb://localhost" /\
    [ Ping; CreateIndex "vitals_db" "vitals" "patient_id";
      CreateIndex "vitals_db" "vitals" "timestamp" ] =
    [ Ping; CreateIndex name "vitals" "patient_id";
      CreateIndex name "vitals" "timestamp" ].
Proof.
  apply (start_database (Some "mongodb://localhost") None None
           ConfigurationError None).
  reflexivity.
Defined.

Example start_refused_uri :
  start (Some "not-a-uri") (Some "InvalidURI") None NoDatabase None = None.
Proof. reflexivity. Qed.

Example start_named_database :
  option_map (fun s => db (fst s))
    (start (Some "mongodb://localhost/clinic") None None (Named "clinic") None) =
  Some (Some "clinic").
Proof. reflexivity. Qed.

Lemma report_is_first_listed_witness :
  exists r rest c,
    Permutation (r :: rest) (filter (is_for "p1") [first_request; second_request]) /\
    Forall (fun r' => stored_timestamp r' < stored_timestamp r) rest /\
    route_get_vitals sample_rt "p1"
      (serve_posts sample_rt [first_request; second_request] []) =
    {| status_code := 200;
       content := BJsonArray (listed_doc sample_rt r ::
                              map (listed_doc sample_rt) rest) |} /\
    route_get_vitals_pdf sample_rt 5000 "p1"
      (serve_posts sample_rt [first_request; second_request] []) [] =
    (write_file ("reports/" ++ report_name sample_rt 5000 "p1" (stored r))%string c [],
     {| status_code := 200;
        content := BFile ("reports/" ++ report_name sample_rt 5000 "p1" (stored r))%string
                     "application/pdf"
                     (report_name sample_rt 5000 "p1" (stored r)) |}) /\
    texts c = sheet sample_rt "p1" (stored r).
Proof.
  apply (report_is_first_listed sample_rt [first_request; second_request] "p1" 5000 []).
  - vm_compute. discriminate.
  - simpl. repeat constructor; simpl; intuition discriminate.
  - simpl. intros r [<-|[<-|[]]]; split; reflexivity.
Defined.

(** C5 as worded fails for two readings at distinct timestamps of which
    one holds a NaN temperature: the listing answers 500. *)
Lemma nan_record_breaks_ordered_listing :
  List.length (filter (is_for "p1") [first_request; nan_request]) = 2%nat /\
  NoDup (map stored_timestamp (filter (is_for "p1") [first_request; nan_request])) /\
  route_get_vitals sample_rt "p1"
    (serve_posts sample_rt [first_request; nan_request] []) =
  {| status_code := 500; content := BText "Internal Server Error" |}.
Proof.
  split; [reflexivity|]. split; [|reflexivity].
  simpl. repeat constructor; simpl; intuition discriminate.
Qed.
